(** * Client-side state synchronisation of the OutlookScraper view

    A shallow embedding of the handlers of the [OutlookScraper] React
    component: every handler is a function from the component state and
    the outcome of the requests it awaits to the next state and the list
    of requests it issued.  State slices are the [useState] cells of the
    component; a [useRef] cell is a plain field. *)

From Stdlib Require Import ZArith Lia Bool List Ascii String.
From stdpp Require Import base option list strings pretty gmap.
Import ListNotations.

Local Open Scope string_scope.
Local Open Scope list_scope.
Local Open Scope Z_scope.

(** ** HTTP vocabulary *)

Inductive method := GET | POST | PATCH | DELETE.

(** The JSON values the component sends in request bodies. *)
Inductive jval :=
| JNull
| JBool (b : bool)
| JNum (n : Z)
| JStr (s : string)
| JStrs (l : list string).

(** [URLSearchParams]: an ordered list of pairs; [set] overwrites the
    first pair with the key or appends. *)
Definition params := list (string * string).

Fixpoint params_set (k v : string) (ps : params) : params :=
  match ps with
  | [] => [(k, v)]
  | (k', v') :: rest =>
      if String.eqb k' k then (k, v) :: rest else (k', v') :: params_set k v rest
  end.

Fixpoint params_get (k : string) (ps : params) : option string :=
  match ps with
  | [] => None
  | (k', v') :: rest => if String.eqb k' k then Some v' else params_get k rest
  end.

Record request := mkRequest {
  req_method : method;
  req_path : string;
  req_query : params;
  req_body : list (string * jval)
}.

(** What awaiting [fetch] and then [res.json()] can produce: [fetch]
    rejects, the status is not ok, the body does not parse, or a value. *)
Inductive fetched (A : Type) :=
| NetworkError
| HttpError (status : Z)
| BadJson
| Json (data : A).
Arguments NetworkError {A}.
Arguments HttpError {A} status.
Arguments BadJson {A}.
Arguments Json {A} data.

(** A [try] body either completes or throws; [catch] makes it total. *)
Inductive outcome (A : Type) :=
| Return (a : A)
| Throw (msg : string).
Arguments Return {A} a.
Arguments Throw {A} msg.

#[export] Instance outcome_ret : MRet outcome := fun A a => Return a.
#[export] Instance outcome_bind : MBind outcome := fun A B k m =>
  match m with
  | Return a => k a
  | Throw e => Throw e
  end.

Definition try_catch {S} (body : outcome S) (handler : string -> S) : S :=
  match body with
  | Return s => s
  | Throw e => handler e
  end.

(** [const res = await fetch(..); if (!res.ok) throw new Error(`HTTP ${res.status}`);
    const data = await res.json();] *)
Definition fetch_json {A} (r : fetched A) : outcome A :=
  match r with
  | NetworkError => Throw "Failed to fetch"
  | HttpError status => Throw ("HTTP " +:+ pretty status)
  | BadJson => Throw "Unexpected token"
  | Json data => Return data
  end.

Definition succeeded {A} (r : fetched A) : bool :=
  match r with Json _ => true | _ => false end.

(** [fetch] itself resolved (whatever the status). *)
Definition resolved {A} (r : fetched A) : bool :=
  match r with NetworkError => false | _ => true end.

(** [res.ok] after a resolved [fetch]. *)
Definition res_ok {A} (r : fetched A) : bool :=
  match r with NetworkError | HttpError _ => false | _ => true end.

(** JS truthiness of a string and [s || d]. *)
Definition truthy (s : string) : bool := negb (String.eqb s "").
Definition or_str (s d : string) : string := if truthy s then s else d.

(** A transient notice: [notify(msg, type)]. *)
Definition notice := (string * string)%type.

(** ** Scheduler toggle *)

Record schedulerForm := mkSchedulerForm {
  interval_minutes : Z;
  folder : string;
  subject_filter : string
}.

Record schedulerStatus := mkSchedulerStatus {
  enabled : option bool;
  st_interval_minutes : option Z;
  st_folder : option string;
  st_subject_filter : option string;
  time_until_next_run_seconds : option Z
}.

Record scheduler := mkScheduler {
  schedulerConfig : option schedulerStatus;
  schedulerFormOf : schedulerForm;
  schedulerLoading : bool;
  schedulerCountdown : option Z;
  schedulerNotice : option notice
}.

(** [sc?.enabled || false] *)
Definition isEnabled (s : scheduler) : bool :=
  match schedulerConfig s with
  | Some sc => default false (enabled sc)
  | None => false
  end.

(** [subject_filter: schedulerForm.subject_filter || null] *)
Definition str_or_null (s : string) : jval := if truthy s then JStr s else JNull.

Definition schedulerConfigBody (en : bool) (f : schedulerForm) : list (string * jval) :=
  [ ("enabled", JBool en);
    ("interval_minutes", JNum (interval_minutes f));
    ("folder", JStr (or_str (folder f) "INBOX"));
    ("subject_filter", str_or_null (subject_filter f)) ].

Definition schedulerConfigRequest (en : bool) (f : schedulerForm) : request :=
  mkRequest POST "/api/scheduler/config" [] (schedulerConfigBody en f).

Definition schedulerStatusRequest : request :=
  mkRequest GET "/api/scheduler/status" [] [].

(** [data.interval_minutes || 30]: zero is falsy. *)
Definition num_or (n : option Z) (d : Z) : Z :=
  match n with
  | Some v => if Z.eqb v 0 then d else v
  | None => d
  end.

Definition opt_str_or (s : option string) (d : string) : string :=
  match s with
  | Some v => or_str v d
  | None => d
  end.

(** [loadSchedulerConfig]: a silent loader. *)
Definition loadSchedulerConfig (r : fetched schedulerStatus) (s : scheduler) : scheduler :=
  try_catch
    (data ← fetch_json r;
     Return (mkScheduler (Some data)
               (mkSchedulerForm (num_or (st_interval_minutes data) 30)
                                (opt_str_or (st_folder data) "INBOX")
                                (opt_str_or (st_subject_filter data) ""))
               (schedulerLoading s)
               (time_until_next_run_seconds data)
               (schedulerNotice s)))
    (fun _ => s).

Definition scheduler_notify (n : notice) (s : scheduler) : scheduler :=
  mkScheduler (schedulerConfig s) (schedulerFormOf s) (schedulerLoading s)
              (schedulerCountdown s) (Some n).

Definition setSchedulerLoading (b : bool) (s : scheduler) : scheduler :=
  mkScheduler (schedulerConfig s) (schedulerFormOf s) b
              (schedulerCountdown s) (schedulerNotice s).

(** The toggle's [onClick].  [post] is the outcome of the config request,
    [reload] that of the status request awaited after a successful post.
    Returns the next state and the requests issued, in order. *)
Definition toggleScheduler (post : fetched unit) (reload : fetched schedulerStatus)
    (s : scheduler) : scheduler * list request :=
  if schedulerLoading s then (s, [])
  else
    let req := schedulerConfigRequest (negb (isEnabled s)) (schedulerFormOf s) in
    let s1 := setSchedulerLoading true s in
    let '(s2, reqs) :=
      if res_ok post then
        (loadSchedulerConfig reload
           (scheduler_notify
              (if isEnabled s then "Scheduler disabled" else "Scheduler enabled", "success") s1),
         [req; schedulerStatusRequest])
      else (scheduler_notify ("Failed to toggle scheduler", "error") s1, [req]) in
    (setSchedulerLoading false s2, reqs).

(** Requests that change server state. *)
Definition is_persistence (r : request) : bool :=
  match req_method r with GET => false | _ => true end.

(** ** Clear-all-data modal *)

Record clearModal := mkClearModal {
  clearConfirmText : string;
  showClearModal : bool;
  clearNotice : option notice
}.

(** [disabled={clearConfirmText !== "CONFIRM"}] *)
Definition deleteDisabled (m : clearModal) : bool :=
  negb (String.eqb (clearConfirmText m) "CONFIRM").

Definition clearDataRequest : request :=
  mkRequest DELETE "/api/storage/clear-data" [] [("confirm", JStr "CONFIRM")].

Definition storageHealthRequest : request :=
  mkRequest GET "/api/storage/health" [] [].

(** The button's [onClick] body. *)
Definition clearDataHandler (del : fetched unit) (m : clearModal) : clearModal * list request :=
  if res_ok del then
    (mkClearModal (clearConfirmText m) false (Some ("All data cleared", "success")),
     [clearDataRequest; storageHealthRequest])
  else
    (mkClearModal (clearConfirmText m) (showClearModal m) (Some ("Failed to clear data", "error")),
     [clearDataRequest]).

(** A click on the "Delete Everything" button: a disabled button
    dispatches no click. *)
Definition clickDeleteEverything (del : fetched unit) (m : clearModal) : clearModal * list request :=
  if deleteDisabled m then (m, []) else clearDataHandler del m.

(** [onChange] of the confirmation input. *)
Definition typeConfirmText (s : string) (m : clearModal) : clearModal :=
  mkClearModal s (showClearModal m) (clearNotice m).

(** ** Email listing with cache fallback *)

Record email := mkEmail {
  email_id : string;
  email_subject : string;
  email_is_read : bool
}.

Record pagination := mkPagination {
  skip : Z;
  top : Z;
  total : Z
}.

(** The listing response [{emails, total}]; either field may be absent. *)
Record listing := mkListing {
  l_emails : option (list email);
  l_total : option Z
}.

Record inboxFilters := mkInboxFilters {
  from_date : string;
  to_date : string;
  sender : string
}.

Record inbox := mkInbox {
  emails : list email;
  paginationOf : pagination;
  emailsFromCache : bool;
  loading : bool;
  error : option string;
  notification : option notice
}.

Definition initialInbox : inbox :=
  mkInbox [] (mkPagination 0 25 0) false false None None.

(** [if (v) params.set(k, v)] *)
Definition set_if (k v : string) (ps : params) : params :=
  if truthy v then params_set k v ps else ps.

Definition set_if_opt (k : string) (v : option string) (ps : params) : params :=
  match v with
  | Some s => set_if k s ps
  | None => ps
  end.

(** The query of the live request of [loadEmails]. *)
Definition liveParams (folderId : option string) (skip : Z) (search : string)
    (filters : inboxFilters) : params :=
  set_if "sender" (sender filters)
    (set_if "to_date" (to_date filters)
      (set_if "from_date" (from_date filters)
        (set_if "search" search
          (set_if_opt "folder_id" folderId
            [("skip", pretty skip); ("top", "25")])))).

(** The query of the fallback request of [loadEmails]. *)
Definition cacheParams (folderId : option string) (skip : Z) (search : string)
    (filters : inboxFilters) : params :=
  set_if "sender" (sender filters)
    (set_if "search" search
      (set_if_opt "folder_id" folderId
        [("skip", pretty skip); ("top", "25"); ("source", "cache")])).

Definition emailsRequest (q : params) : request :=
  mkRequest GET "/api/emails" q [].

(** [cData.emails?.length] as a condition. *)
Definition has_emails (d : listing) : bool :=
  match l_emails d with
  | Some (_ :: _) => true
  | _ => false
  end.

Definition inbox_notify (n : notice) (s : inbox) : inbox :=
  mkInbox (emails s) (paginationOf s) (emailsFromCache s) (loading s) (error s) (Some n).

Definition setLoading (b : bool) (s : inbox) : inbox :=
  mkInbox (emails s) (paginationOf s) (emailsFromCache s) b (error s) (notification s).

Definition setError (e : option string) (s : inbox) : inbox :=
  mkInbox (emails s) (paginationOf s) (emailsFromCache s) (loading s) e (notification s).

(** [setEmails(..); setPagination({skip, top: 25, total}); setEmailsFromCache(b)] *)
Definition setListing (es : list email) (skip total : Z) (fromCache : bool) (s : inbox) : inbox :=
  mkInbox es (mkPagination skip 25 total) fromCache (loading s) (error s) (notification s).

(** The cache fallback inside the [catch] of [loadEmails].  [seen] is the
    [emailsFromCache] the handler reads: the value held by the render
    that created the handler, which need not be the one of the state its
    writes apply to. *)
Definition cacheFallback (seen : bool) (folderId : option string) (skip : Z) (search : string)
    (filters : inboxFilters) (cache : fetched listing) (s : inbox) : inbox * list request :=
  if seen then (s, [])
  else
    let cReq := emailsRequest (cacheParams folderId skip search filters) in
    match cache with
    | Json cData =>
        if has_emails cData
        then (setListing (default [] (l_emails cData)) skip (num_or (l_total cData) 0) true s, [cReq])
        else (s, [cReq])
    | _ => (s, [cReq])
    end.

(** [loadEmails(folderId, skip, search, filters)]; [live] and [cache] are
    the outcomes of the live request and of the fallback request (the
    latter is only consulted when the fallback is issued); [seen] is the
    [emailsFromCache] of the render that created the handler (false for
    the listing [checkAuth] starts at mount, whatever the pre-load did
    since). *)
Definition loadEmails (seen : bool) (folderId : option string) (skip : Z) (search : string)
    (filters : inboxFilters) (live cache : fetched listing) (s : inbox)
    : inbox * list request :=
  let s0 := setError None (setLoading true s) in
  let liveReq := emailsRequest (liveParams folderId skip search filters) in
  let '(s1, reqs) :=
    match fetch_json live with
    | Return data =>
        (setListing (default [] (l_emails data)) skip (num_or (l_total data) 0) false s0, [liveReq])
    | Throw _ =>
        let '(s', creqs) := cacheFallback seen folderId skip search filters cache s0 in
        (inbox_notify ("IMAP unavailable — showing cached emails", "error") s', liveReq :: creqs)
    end in
  (setLoading false s1, reqs).

(** [{emailsFromCache && emails.length > 0 && <banner/>}] *)
Definition cacheBanner (s : inbox) : bool :=
  emailsFromCache s && negb (Nat.eqb (length (emails s)) 0).

(** Pagination controls; they are rendered when [emails.length > 0]. *)
Definition paginationRendered (s : inbox) : bool :=
  negb (Nat.eqb (length (emails s)) 0).

(** [pointerEvents: pagination.skip === 0 ? "none" : "auto"] *)
Definition prevEnabled (p : pagination) : bool := negb (skip p =? 0).

(** [pointerEvents: pagination.skip + 25 >= pagination.total ? "none" : "auto"] *)
Definition nextEnabled (p : pagination) : bool := negb (skip p + 25 >=? total p).

(** The range shown next to the controls:
    [skip + 1]-[Math.min(skip + top, total)] of [total]. *)
Definition shownRange (p : pagination) : Z * Z :=
  (skip p + 1, Z.min (skip p + top p) (total p)).

(** The handlers of the controls belong to the render that shows [s]:
    they read its pagination and its [emailsFromCache]. *)
Definition clickPrev (activeFolder : option string) (searchQuery : string)
    (filters : inboxFilters) (live cache : fetched listing) (s : inbox)
    : inbox * list request :=
  if paginationRendered s && prevEnabled (paginationOf s) then
    if 0 <? skip (paginationOf s)
    then loadEmails (emailsFromCache s) activeFolder (Z.max 0 (skip (paginationOf s) - 25))
                    searchQuery filters live cache s
    else (s, [])
  else (s, []).

Definition clickNext (activeFolder : option string) (searchQuery : string)
    (filters : inboxFilters) (live cache : fetched listing) (s : inbox)
    : inbox * list request :=
  if paginationRendered s && nextEnabled (paginationOf s) then
    if skip (paginationOf s) + 25 <? total (paginationOf s)
    then loadEmails (emailsFromCache s) activeFolder (skip (paginationOf s) + 25)
                    searchQuery filters live cache s
    else (s, [])
  else (s, []).

(** The user actions that list emails, with the [skip] each passes. *)
Inductive inboxAction :=
| Reload (skip0 : bool)   (* search, folder change, filters: skip 0; refresh: current skip *)
| PrevPage
| NextPage.

Definition inboxStep (a : inboxAction) (activeFolder : option string) (searchQuery : string)
    (filters : inboxFilters) (live cache : fetched listing) (s : inbox)
    : inbox * list request :=
  match a with
  | Reload true => loadEmails (emailsFromCache s) activeFolder 0 searchQuery filters live cache s
  | Reload false =>
      loadEmails (emailsFromCache s) activeFolder (skip (paginationOf s)) searchQuery filters
                 live cache s
  | PrevPage => clickPrev activeFolder searchQuery filters live cache s
  | NextPage => clickNext activeFolder searchQuery filters live cache s
  end.

(** ** Notification poller *)

Record notif := mkNotif {
  n_id : Z;
  n_type : string;
  n_title : string;
  n_message : string;
  n_is_read : bool
}.

(** The count response: [data.unread_count ?? data.count ?? 0]. *)
Record countData := mkCountData {
  unread_count : option Z;
  count : option Z
}.

Definition newCountOf (d : countData) : Z :=
  match unread_count d with
  | Some c => c
  | None => default 0 (count d)
  end.

(** A toast [{message, type}]; its id and its removal after 5s are not
    part of the state modelled here. *)
Record toast := mkToast {
  toast_message : string;
  toast_type : string
}.

Record notifState := mkNotifState {
  notifications : list notif;
  unreadCount : Z;
  prevUnreadCountRef : Z;
  toasts : list toast;
  notifDropdownOpen : bool
}.

Definition initialNotifState : notifState := mkNotifState [] 0 0 [] false.


Definition notificationsRequest (limit : Z) : request :=
  mkRequest GET "/api/notifications" [("limit", pretty limit)] [].

(** [loadNotificationCount]: returns the state once React has processed
    the update, and the value the promise resolves to ([None] for
    [undefined]).  The updater passed to [setUnreadCount] stores the
    state it replaces in the ref; it runs when the update is processed,
    which is after the continuation of the caller that awaited the
    promise. *)
Definition loadNotificationCount (r : fetched countData) (s : notifState)
    : notifState * option Z :=
  match r with
  | Json data =>
      let newCount := newCountOf data in
      (mkNotifState (notifications s) newCount (unreadCount s) (toasts s) (notifDropdownOpen s),
       Some newCount)
  | _ => (s, None)
  end.

(** [loadNotifications]: a silent loader;
    [Array.isArray(data) ? data : data.notifications || []]. *)
Definition loadNotifications (r : fetched (list notif)) (s : notifState) : notifState :=
  match r with
  | Json items =>
      mkNotifState items (unreadCount s) (prevUnreadCountRef s) (toasts s) (notifDropdownOpen s)
  | _ => s
  end.







(** "Mark all read": [await fetch(read-all); setUnreadCount(0);
    loadNotifications()] inside one [try]. *)
Definition readAllRequest : request :=
  mkRequest PATCH "/api/notifications/read-all" [] [].

Definition setUnreadCount (f : Z -> Z) (s : notifState) : notifState :=
  mkNotifState (notifications s) (f (unreadCount s)) (prevUnreadCountRef s) (toasts s)
               (notifDropdownOpen s).

Definition markAllRead (patch : fetched unit) (reload : fetched (list notif)) (s : notifState)
    : notifState * list request :=
  if resolved patch
  then (loadNotifications reload (setUnreadCount (fun _ => 0) s),
        [readAllRequest; notificationsRequest 20])
  else (s, [readAllRequest]).

(** A click on a notification of the dropdown. *)
Definition readRequest (id : Z) : request :=
  mkRequest PATCH ("/api/notifications/" +:+ pretty id +:+ "/read") [] [].

Definition markRead (id : Z) (n : notif) : notif :=
  if n_id n =? id then mkNotif (n_id n) (n_type n) (n_title n) (n_message n) true else n.

Definition clickNotification (n : notif) (patch : fetched unit) (s : notifState)
    : notifState * list request :=
  let '(s1, reqs) :=
    if n_is_read n then (s, [])
    else
      (setUnreadCount (fun c => Z.max 0 (c - 1))
         (mkNotifState (map (markRead (n_id n)) (notifications s)) (unreadCount s)
                       (prevUnreadCountRef s) (toasts s) (notifDropdownOpen s)),
       [readRequest (n_id n)]) in
  (mkNotifState (notifications s1) (unreadCount s1) (prevUnreadCountRef s1) (toasts s1) false,
   reqs).

(** The two mark-read handlers in any order and number. *)
Inductive notifEvent :=
| ClickNotif (n : notif) (patch : fetched unit)
| MarkAll (patch : fetched unit) (reload : fetched (list notif)).

Definition notifStep (e : notifEvent) (s : notifState) : notifState :=
  match e with
  | ClickNotif n patch => fst (clickNotification n patch s)
  | MarkAll patch reload => fst (markAllRead patch reload s)
  end.

(** ** Debounced search *)

(** The state of one [useDebounce(value, 300)] call site: the raw value
    the hook is called with, the hook's own state, the pending
    [setTimeout] (deadline in ms and the value its closure captured) and
    the clock. *)
Record debouncer := mkDebouncer {
  now : nat;
  value : string;
  debounced : string;
  timer : option (nat * string);
  mounted : bool
}.

Definition delay : nat := 300.

(** First render: [useState(value)], then the effect arms the timer. *)
Definition mount (t : nat) (v : string) : debouncer :=
  mkDebouncer t v v (Some ((t + delay)%nat, v)) true.

Inductive debEvent :=
| Change (v : string)     (* the raw state is set to [v] *)
| Elapse (ms : nat)       (* [ms] milliseconds pass without any other event *)
| Unmount.

(** One event; returns the values for which an effect depending on the
    debounced value ran.  A [Change] to the value already held does not
    re-render; another value re-runs the hook's effect: its cleanup
    clears the pending timer and a new timer is armed.  When the clock
    reaches the deadline the callback [setDebounced(value)] runs, and
    dependants run only if the debounced value changed. *)
Definition debStep (e : debEvent) (s : debouncer) : debouncer * list string :=
  if negb (mounted s) then (s, [])
  else
    match e with
    | Change v =>
        if String.eqb v (value s) then (s, [])
        else (mkDebouncer (now s) v (debounced s) (Some ((now s + delay)%nat, v)) true, [])
    | Elapse ms =>
        let t := (now s + ms)%nat in
        match timer s with
        | Some (deadline, v) =>
            if (deadline <=? t)%nat then
              (mkDebouncer t (value s) v None true,
               if String.eqb v (debounced s) then [] else [v])
            else (mkDebouncer t (value s) (debounced s) (timer s) true, [])
        | None => (mkDebouncer t (value s) (debounced s) None true, [])
        end
    | Unmount => (mkDebouncer (now s) (value s) (debounced s) None false, [])
    end.

Fixpoint debRun (es : list debEvent) (s : debouncer) : debouncer * list string :=
  match es with
  | [] => (s, [])
  | e :: rest =>
      let '(s1, out1) := debStep e s in
      let '(s2, out2) := debRun rest s1 in
      (s2, out1 ++ out2)
  end.

(** A burst of changes: a first change, then changes each preceded by a
    pause. *)
Definition burst (v1 : string) (rest : list (nat * string)) : list debEvent :=
  Change v1 :: flat_map (fun gv => [Elapse (fst gv); Change (snd gv)]) rest.

Definition finalValue (v1 : string) (rest : list (nat * string)) : string :=
  List.last (map snd rest) v1.

(** Each change differs from the raw value it replaces. *)
Fixpoint changing (prev : string) (vs : list string) : Prop :=
  match vs with
  | [] => True
  | v :: rest => v <> prev /\ changing v rest
  end.

(** The pending timer, if any, was armed for the raw value now held. *)
Definition timerCurrent (s : debouncer) : Prop :=
  match timer s with
  | Some (_, v) => v = value s
  | None => True
  end.

(** The effect on [debouncedSearch]:
    [if (auth.authenticated && debouncedSearch !== undefined)
       loadEmails(activeFolder, 0, debouncedSearch, inboxFilters)]. *)
Definition emailSearchEffect (authenticated : bool) (activeFolder : option string)
    (filters : inboxFilters) (debouncedSearch : string) : list request :=
  if authenticated
  then [emailsRequest (liveParams activeFolder 0 debouncedSearch filters)]
  else [].

(** The query of [loadCandidates(search, tagF)]. *)
Definition candidatesParams (search tagF : string) : params :=
  set_if "tag" tagF (set_if "name" search []).

Definition candidatesRequest (search tagF : string) : request :=
  mkRequest GET "/api/candidates" (candidatesParams search tagF) [].

(** The effect on [debouncedCandSearch]:
    [if (auth.authenticated && view === "candidates") loadCandidates(debouncedCandSearch)]. *)
Definition candSearchEffect (authenticated : bool) (view tagFilter : string)
    (debouncedCandSearch : string) : list request :=
  if authenticated && String.eqb view "candidates"
  then [candidatesRequest debouncedCandSearch tagFilter]
  else [].

(** ** Candidates: notes and tags *)

Record candidate := mkCandidate {
  c_id : Z;
  c_name : string;
  c_notes : option string;
  c_tags : option (list string)
}.

Record recruit := mkRecruit {
  candidates : list candidate;
  candidateNotesDraft : gmap Z string;
  selectedCandidateId : option Z;
  candidateProfile : option candidate;
  selectedCandidate : option candidate;
  profileNotesSaved : bool;
  dbCandidates : Z;
  recruitNotice : option notice
}.

(** [c.notes || ""] and [c.tags || []] *)
Definition notesOf (c : candidate) : string := default "" (c_notes c).
Definition tagsOf (c : candidate) : list string := default [] (c_tags c).


Definition withTags (tags : list string) (c : candidate) : candidate :=
  mkCandidate (c_id c) (c_name c) (c_notes c) (Some tags).

(** [candidates.find((x) => x.id === id)] *)
Definition findCandidate (id : Z) (cs : list candidate) : option candidate :=
  List.find (fun x => c_id x =? id) cs.

(** [prev.map((c) => c.id === id ? f(c) : c)] *)
Definition updateCandidate (id : Z) (f : candidate -> candidate) (cs : list candidate)
    : list candidate :=
  map (fun c => if c_id c =? id then f c else c) cs.

Definition setCandidates (f : list candidate -> list candidate) (s : recruit) : recruit :=
  mkRecruit (f (candidates s)) (candidateNotesDraft s) (selectedCandidateId s)
            (candidateProfile s) (selectedCandidate s) (profileNotesSaved s)
            (dbCandidates s) (recruitNotice s).


Definition setCandidateProfile (f : option candidate -> option candidate) (s : recruit) : recruit :=
  mkRecruit (candidates s) (candidateNotesDraft s) (selectedCandidateId s)
            (f (candidateProfile s)) (selectedCandidate s) (profileNotesSaved s)
            (dbCandidates s) (recruitNotice s).

Definition setSelectedCandidate (f : option candidate -> option candidate) (s : recruit) : recruit :=
  mkRecruit (candidates s) (candidateNotesDraft s) (selectedCandidateId s)
            (candidateProfile s) (f (selectedCandidate s)) (profileNotesSaved s)
            (dbCandidates s) (recruitNotice s).

Definition setSelectedCandidateId (id : option Z) (s : recruit) : recruit :=
  mkRecruit (candidates s) (candidateNotesDraft s) id
            (candidateProfile s) (selectedCandidate s) (profileNotesSaved s)
            (dbCandidates s) (recruitNotice s).


Definition recruit_notify (n : notice) (s : recruit) : recruit :=
  mkRecruit (candidates s) (candidateNotesDraft s) (selectedCandidateId s)
            (candidateProfile s) (selectedCandidate s) (profileNotesSaved s)
            (dbCandidates s) (Some n).


Definition tagsRequest (id : Z) (tags : list string) : request :=
  mkRequest PATCH ("/api/candidates/" +:+ pretty id +:+ "/tags") [] [("tags", JStrs tags)].


(** [saveCandidateTags(id, tags)] *)
Definition saveCandidateTags (id : Z) (tags : list string) (patch : fetched unit) (s : recruit)
    : recruit * list request :=
  (if res_ok patch
   then setCandidates (updateCandidate id (withTags tags)) s
   else recruit_notify ("Failed to save tags", "error") s,
   [tagsRequest id tags]).



(** [draft !== undefined && draft !== (c.notes || "")] *)
Definition draftDiffers (c : candidate) (s : recruit) : option string :=
  match candidateNotesDraft s !! c_id c with
  | Some d => if String.eqb d (notesOf c) then None else Some d
  | None => None
  end.


(** The candidate the profile view renders:
    [candidateProfile || candidates.find((x) => x.id === selectedCandidateId)]. *)
Definition profileCandidate (s : recruit) : option candidate :=
  match candidateProfile s with
  | Some p => Some p
  | None =>
      match selectedCandidateId s with
      | Some id => findCandidate id (candidates s)
      | None => None
      end
  end.


(** [openCandidateProfile(id)] *)
Definition candidateRequest (id : Z) : request :=
  mkRequest GET ("/api/candidates/" +:+ pretty id) [] [].

Definition openCandidateProfile (id : Z) (r : fetched candidate) (s : recruit)
    : recruit * list request :=
  let s0 := setCandidateProfile (fun _ => None) (setSelectedCandidateId (Some id) s) in
  (try_catch
     (data ← fetch_json r;
      Return (setSelectedCandidate (fun _ => Some data)
                (setCandidateProfile (fun _ => Some data) s0)))
     (fun e => recruit_notify ("Failed to load candidate profile: " +:+ e, "error") s0),
   [candidateRequest id]).

(** The JS runtime's [String.prototype.toLowerCase]. *)
Class Lowercase := toLowerCase : string -> string.

(** Lower-casing of the ASCII letters, every other byte unchanged. *)
Definition ascii_lower (a : ascii) : ascii :=
  let n := nat_of_ascii a in
  if ((65 <=? n) && (n <=? 90))%nat then ascii_of_nat (n + 32) else a.

Fixpoint ascii_toLowerCase (s : string) : string :=
  match s with
  | EmptyString => EmptyString
  | String a rest => String (ascii_lower a) (ascii_toLowerCase rest)
  end.

Definition asciiLowercase : Lowercase := ascii_toLowerCase.

Definition SUGGESTED_TAGS : list string :=
  ["Shortlisted"; "Rejected"; "On Hold"; "Interview Scheduled"; "Offer Sent"].

Section Tags.
Context {L : Lowercase}.

(** [current.some((t) => t.toLowerCase() === tag.toLowerCase())] *)
Definition hasTagCI (tag : string) (current : list string) : bool :=
  existsb (fun t => String.eqb (toLowerCase t) (toLowerCase tag)) current.

(** [addTagToCandidate(id, tag)] *)
Definition addTagToCandidate (id : Z) (tag : string) (patch : fetched unit) (s : recruit)
    : recruit * list request :=
  match findCandidate id (candidates s) with
  | None => (s, [])
  | Some c =>
      let current := tagsOf c in
      if hasTagCI tag current then (s, [])
      else saveCandidateTags id (current ++ [tag]) patch s
  end.

(** [removeTagFromCandidate(id, tag)] *)
Definition removeTagFromCandidate (id : Z) (tag : string) (patch : fetched unit) (s : recruit)
    : recruit * list request :=
  match findCandidate id (candidates s) with
  | None => (s, [])
  | Some c =>
      saveCandidateTags id (List.filter (fun t => negb (String.eqb t tag)) (tagsOf c)) patch s
  end.

(** A tag set without two members equal up to case. *)
Fixpoint noDupCI (tags : list string) : bool :=
  match tags with
  | [] => true
  | t :: rest => negb (hasTagCI t rest) && noDupCI rest
  end.

(** Every candidate of a list has a tag set without duplicates up to case. *)
Definition tagsClean (cs : list candidate) : Prop :=
  Forall (fun c => noDupCI (tagsOf c) = true) cs.

(** The suggested-tag buttons a view shows for the candidate it renders. *)
Definition suggestedShown (c : candidate) : list string :=
  List.filter (fun st => negb (hasTagCI st (tagsOf c))) SUGGESTED_TAGS.

(** A suggested-tag button of a row of the candidates list. *)
Definition listAddSuggested (c : candidate) (st : string) (patch : fetched unit) (s : recruit)
    : recruit * list request :=
  if existsb (String.eqb st) (suggestedShown c)
  then addTagToCandidate (c_id c) st patch s
  else (s, []).

(** [prev ? { ...prev, tags: [...(prev.tags || []), st] } : prev] *)
Definition appendTag (st : string) (prev : option candidate) : option candidate :=
  option_map (fun p => withTags (tagsOf p ++ [st]) p) prev.

(** The updater of the custom-tag input of the profile view. *)
Definition appendTagCI (newTag : string) (prev : option candidate) : option candidate :=
  option_map (fun p => if hasTagCI newTag (tagsOf p) then p
                       else withTags (tagsOf p ++ [newTag]) p) prev.

(** A suggested-tag button of the profile view; [c] is the candidate
    the view renders. *)
Definition profileAddSuggested (c : candidate) (st : string) (patch : fetched unit)
    (s : recruit) : recruit * list request :=
  if existsb (String.eqb st) (suggestedShown c) then
    let '(s1, reqs) := addTagToCandidate (c_id c) st patch s in
    (setSelectedCandidate (appendTag st) (setCandidateProfile (appendTag st) s1), reqs)
  else (s, []).

(** Enter in the custom-tag input of the profile view; [newTag] is the
    trimmed input, and nothing happens when it is empty. *)
Definition profileAddCustom (c : candidate) (newTag : string) (patch : fetched unit)
    (s : recruit) : recruit * list request :=
  if truthy newTag then
    let '(s1, reqs) := addTagToCandidate (c_id c) newTag patch s in
    (setSelectedCandidate (appendTagCI newTag) (setCandidateProfile (appendTagCI newTag) s1),
     reqs)
  else (s, []).
End Tags.

(** ** The remaining resource loaders *)

(** A JSON value the loaders store without inspecting it, by its text. *)
Definition payload := string.

Record resources := mkResources {
  folders : list payload;
  stats : option payload;
  storedAttachments : list payload;
  jobs : list payload;
  matchResults : list payload;
  storageHealth : option payload;
  storageLastUpdated : option Z;
  resLoading : bool;
  resError : option string;
  resNotice : option notice;
  consoleErrors : list string
}.

Definition res_notify (n : notice) (s : resources) : resources :=
  mkResources (folders s) (stats s) (storedAttachments s) (jobs s) (matchResults s)
              (storageHealth s) (storageLastUpdated s) (resLoading s) (resError s)
              (Some n) (consoleErrors s).

Definition setResLoading (b : bool) (s : resources) : resources :=
  mkResources (folders s) (stats s) (storedAttachments s) (jobs s) (matchResults s)
              (storageHealth s) (storageLastUpdated s) b (resError s)
              (resNotice s) (consoleErrors s).

Definition setResError (e : option string) (s : resources) : resources :=
  mkResources (folders s) (stats s) (storedAttachments s) (jobs s) (matchResults s)
              (storageHealth s) (storageLastUpdated s) (resLoading s) e
              (resNotice s) (consoleErrors s).

Definition setFolders (v : list payload) (s : resources) : resources :=
  mkResources v (stats s) (storedAttachments s) (jobs s) (matchResults s)
              (storageHealth s) (storageLastUpdated s) (resLoading s) (resError s)
              (resNotice s) (consoleErrors s).

Definition setStats (v : option payload) (s : resources) : resources :=
  mkResources (folders s) v (storedAttachments s) (jobs s) (matchResults s)
              (storageHealth s) (storageLastUpdated s) (resLoading s) (resError s)
              (resNotice s) (consoleErrors s).

Definition setStoredAttachments (v : list payload) (s : resources) : resources :=
  mkResources (folders s) (stats s) v (jobs s) (matchResults s)
              (storageHealth s) (storageLastUpdated s) (resLoading s) (resError s)
              (resNotice s) (consoleErrors s).

Definition setJobs (v : list payload) (s : resources) : resources :=
  mkResources (folders s) (stats s) (storedAttachments s) v (matchResults s)
              (storageHealth s) (storageLastUpdated s) (resLoading s) (resError s)
              (resNotice s) (consoleErrors s).

Definition setMatchResults (v : list payload) (s : resources) : resources :=
  mkResources (folders s) (stats s) (storedAttachments s) (jobs s) v
              (storageHealth s) (storageLastUpdated s) (resLoading s) (resError s)
              (resNotice s) (consoleErrors s).

Definition setStorageHealth (v : option payload) (at_ : Z) (s : resources) : resources :=
  mkResources (folders s) (stats s) (storedAttachments s) (jobs s) (matchResults s)
              v (Some at_) (resLoading s) (resError s)
              (resNotice s) (consoleErrors s).

Definition consoleError (msg : string) (s : resources) : resources :=
  mkResources (folders s) (stats s) (storedAttachments s) (jobs s) (matchResults s)
              (storageHealth s) (storageLastUpdated s) (resLoading s) (resError s)
              (resNotice s) (consoleErrors s ++ [msg]).

(** [loadFolders]: the failure goes to the console only. *)
Definition loadFolders (r : fetched (list payload)) (s : resources) : resources :=
  try_catch
    (data ← fetch_json r; Return (setFolders data s))
    (fun e => consoleError ("Failed to load folders: " +:+ e) s).

(** [loadStats] *)
Definition loadStats (r : fetched payload) (s : resources) : resources :=
  let s0 := setResError None (setResLoading true s) in
  setResLoading false
    (try_catch
       (data ← fetch_json r; Return (setStats (Some data) s0))
       (fun _ => res_notify ("Failed to load stats", "error") s0)).

(** [loadAttachments(typeFilter)] *)
Definition attachmentsParams (typeFilter : string) : params :=
  if truthy typeFilter && negb (String.eqb typeFilter "all")
  then params_set "file_type" typeFilter []
  else [].

Definition loadAttachments (typeFilter : string) (r : fetched (list payload)) (s : resources)
    : resources :=
  let s0 := setResLoading true s in
  setResLoading false
    (try_catch
       (data ← fetch_json r; Return (setStoredAttachments data s0))
       (fun _ => res_notify ("Failed to load attachments", "error") s0)).

(** [loadJobs] *)
Definition loadJobs (r : fetched (list payload)) (s : resources) : resources :=
  try_catch
    (data ← fetch_json r; Return (setJobs data s))
    (fun _ => res_notify ("Failed to load jobs", "error") s).

(** [loadMatchResults(jobId)]; the response is [{results}], possibly
    without the field: [data.results || []]. *)
Definition loadMatchResults (r : fetched (option (list payload))) (s : resources) : resources :=
  try_catch
    (data ← fetch_json r; Return (setMatchResults (default [] data) s))
    (fun _ => setMatchResults [] s).

(** [loadStorageHealth]; [at_] is the clock read by [new Date()]. *)
Definition loadStorageHealth (at_ : Z) (r : fetched payload) (s : resources) : resources :=
  try_catch
    (data ← fetch_json r; Return (setStorageHealth (Some data) at_ s))
    (fun _ => res_notify ("Failed to load storage health", "error") s).

(** [loadCandidates(search, tagF)] *)
Definition loadCandidates (search tagF : string) (r : fetched (list candidate)) (s : recruit)
    : recruit :=
  try_catch
    (data ← fetch_json r;
     Return (let s1 := setCandidates (fun _ => data) s in
             if negb (truthy search) && negb (truthy tagF)
             then mkRecruit (candidates s1) (candidateNotesDraft s1) (selectedCandidateId s1)
                            (candidateProfile s1) (selectedCandidate s1) (profileNotesSaved s1)
                            (Z.of_nat (length data)) (recruitNotice s1)
             else s1))
    (fun _ => recruit_notify ("Failed to load candidates", "error") s).

(** ** Relative time labels *)

(** The argument of [formatRelativeTime] once read by [new Date(iso).getTime()]:
    absent, not a date, or a time in ms. *)
Inductive stamp :=
| NoStamp
| InvalidStamp
| Stamp (ms : Z).

(** The quantity and unit a label shows. *)
Inductive age :=
| JustNow
| Minutes (n : Z)
| Hours (n : Z)
| Days (n : Z)
| Weeks (n : Z).

(** The branches of [formatRelativeTime] on [diff = Date.now() - time]. *)
Definition relativeAge (diff : Z) : age :=
  let mins := diff / 60000 in
  if mins <? 1 then JustNow
  else if mins <? 60 then Minutes mins
  else
    let hrs := mins / 60 in
    if hrs <? 24 then Hours hrs
    else
      let days := hrs / 24 in
      if days <? 7 then Days days else Weeks (days / 7).

Definition renderAge (a : age) : string :=
  match a with
  | JustNow => "Just now"
  | Minutes n => pretty n +:+ "m ago"
  | Hours n => pretty n +:+ "h ago"
  | Days n => pretty n +:+ "d ago"
  | Weeks n => pretty n +:+ "w ago"
  end.

(** [formatRelativeTime(iso)] with the clock [nowMs]; a string that is
    not a date gives NaN, which fails every comparison. *)
Definition formatRelativeTime (nowMs : Z) (iso : stamp) : string :=
  match iso with
  | NoStamp => ""
  | InvalidStamp => "NaNw ago"
  | Stamp t => renderAge (relativeAge (nowMs - t))
  end.

(** The "Last run" label of the scheduler card: the same branches
    without the week. *)
Definition lastRunAge (diff : Z) : age :=
  let mins := diff / 60000 in
  if mins <? 1 then JustNow
  else if mins <? 60 then Minutes mins
  else
    let hrs := mins / 60 in
    if hrs <? 24 then Hours hrs else Days (hrs / 24).

(** The length in ms of the span a label stands for. *)
Definition ageSpan (a : age) : Z * Z :=
  match a with
  | JustNow => (0, 60000)
  | Minutes n => (n * 60000, (n + 1) * 60000)
  | Hours n => (n * 3600000, (n + 1) * 3600000)
  | Days n => (n * 86400000, (n + 1) * 86400000)
  | Weeks n => (n * 604800000, (n + 1) * 604800000)
  end.

(** ** Scrape form and requests *)

Record scrapeConfig := mkScrapeConfig {
  sc_folder_id : string;
  sc_from_date : string;
  sc_to_date : string;
  sc_sender_filter : string;
  sc_subject_filter : string;
  sc_search : string;
  sc_max_results : Z;
  sc_include_attachments : bool
}.

Definition initialScrapeConfig : scrapeConfig :=
  mkScrapeConfig "" "" "" "" "" "" 50 true.

(** The edits of the scrape form.  [SetMaxResults] carries the result of
    [parseInt] on the input ([None] for NaN). *)
Inductive scrapeEdit :=
| SetFolderId (v : string)
| SetFromDate (v : string)
| SetToDate (v : string)
| SetSenderFilter (v : string)
| SetSubjectFilter (v : string)
| SetSearch (v : string)
| SetMaxResults (parsed : option Z)
| SetIncludeAttachments (b : bool)
| ClearFilters.

(** [Math.min(500, Math.max(1, parseInt(e.target.value) || 50))] *)
Definition clampMaxResults (parsed : option Z) : Z :=
  Z.min 500 (Z.max 1 (num_or parsed 50)).

Definition editScrapeConfig (e : scrapeEdit) (c : scrapeConfig) : scrapeConfig :=
  match e with
  | SetFolderId v =>
      mkScrapeConfig v (sc_from_date c) (sc_to_date c) (sc_sender_filter c)
                     (sc_subject_filter c) (sc_search c) (sc_max_results c)
                     (sc_include_attachments c)
  | SetFromDate v =>
      mkScrapeConfig (sc_folder_id c) v (sc_to_date c) (sc_sender_filter c)
                     (sc_subject_filter c) (sc_search c) (sc_max_results c)
                     (sc_include_attachments c)
  | SetToDate v =>
      mkScrapeConfig (sc_folder_id c) (sc_from_date c) v (sc_sender_filter c)
                     (sc_subject_filter c) (sc_search c) (sc_max_results c)
                     (sc_include_attachments c)
  | SetSenderFilter v =>
      mkScrapeConfig (sc_folder_id c) (sc_from_date c) (sc_to_date c) v
                     (sc_subject_filter c) (sc_search c) (sc_max_results c)
                     (sc_include_attachments c)
  | SetSubjectFilter v =>
      mkScrapeConfig (sc_folder_id c) (sc_from_date c) (sc_to_date c) (sc_sender_filter c)
                     v (sc_search c) (sc_max_results c) (sc_include_attachments c)
  | SetSearch v =>
      mkScrapeConfig (sc_folder_id c) (sc_from_date c) (sc_to_date c) (sc_sender_filter c)
                     (sc_subject_filter c) v (sc_max_results c) (sc_include_attachments c)
  | SetMaxResults parsed =>
      mkScrapeConfig (sc_folder_id c) (sc_from_date c) (sc_to_date c) (sc_sender_filter c)
                     (sc_subject_filter c) (sc_search c) (clampMaxResults parsed)
                     (sc_include_attachments c)
  | SetIncludeAttachments b =>
      mkScrapeConfig (sc_folder_id c) (sc_from_date c) (sc_to_date c) (sc_sender_filter c)
                     (sc_subject_filter c) (sc_search c) (sc_max_results c) b
  | ClearFilters => initialScrapeConfig
  end.

(** [{ ...scrapeConfig }] with its keys in order. *)
Definition scrapeFields (c : scrapeConfig) : list (string * jval) :=
  [ ("folder_id", JStr (sc_folder_id c));
    ("from_date", JStr (sc_from_date c));
    ("to_date", JStr (sc_to_date c));
    ("sender_filter", JStr (sc_sender_filter c));
    ("subject_filter", JStr (sc_subject_filter c));
    ("search", JStr (sc_search c));
    ("max_results", JNum (sc_max_results c));
    ("include_attachments", JBool (sc_include_attachments c)) ].

(** [body[k] === "" || body[k] === null] *)
Definition emptyOrNull (v : jval) : bool :=
  match v with
  | JNull => true
  | JStr s => String.eqb s ""
  | _ => false
  end.

(** [Object.keys(body).forEach((k) => { if (..) delete body[k]; })] *)
Definition scrapeBody (c : scrapeConfig) : list (string * jval) :=
  List.filter (fun kv => negb (emptyOrNull (snd kv))) (scrapeFields c).

Definition scrapeRequest (c : scrapeConfig) : request :=
  mkRequest POST "/api/scrape" [] (scrapeBody c).

(** [exportData(format)] posts the same body. *)
Definition exportRequest (format : string) (c : scrapeConfig) : request :=
  mkRequest POST ("/api/export/" +:+ format) [] (scrapeBody c).

(** The scrape response, as far as [runScrape] reads it. *)
Record scrapeData := mkScrapeData {
  total_scraped : option Z;
  scraped : payload
}.

Record scrapeView := mkScrapeView {
  scrapeResult : option scrapeData;
  expandedScrapeCards : gset nat;
  scrapeLoading : bool;
  scrapeError : option string;
  scrapeNotice : option notice
}.

(** [`Scraped ${data.total_scraped} emails`] *)
Definition scrapedMessage (d : scrapeData) : string :=
  "Scraped " +:+ match total_scraped d with Some n => pretty n | None => "undefined" end
             +:+ " emails".

(** [runScrape] *)
Definition runScrape (c : scrapeConfig) (r : fetched scrapeData) (v : scrapeView)
    : scrapeView * list request :=
  (match fetch_json r with
   | Return data =>
       mkScrapeView (Some data) ∅ false None (Some (scrapedMessage data, "success"))
   | Throw _ =>
       mkScrapeView None ∅ false None (Some ("Scrape failed", "error"))
   end,
   [scrapeRequest c]).

(** The click on the header of scrape card [i]:
    [next.has(i) ? next.delete(i) : next.add(i)] on a copy. *)
Definition toggleScrapeCard (i : nat) (v : scrapeView) : scrapeView :=
  mkScrapeView (scrapeResult v)
               (if decide (i ∈ expandedScrapeCards v)
                then expandedScrapeCards v ∖ {[i]}
                else expandedScrapeCards v ∪ {[i]})
               (scrapeLoading v) (scrapeError v) (scrapeNotice v).

(** ** Session gate *)

Inductive authMethod := Imap | Oauth2.

(** [{name, email}] *)
Record userInfo := mkUserInfo {
  user_name : string;
  user_email : string
}.

Record session := mkSession {
  auth_loading : bool;
  auth_authenticated : bool;
  auth_user : option userInfo;
  authMethodOf : authMethod;
  sessionError : option string;
  loginLoading : bool;
  sessionNotice : option notice
}.

Definition initialSession : session :=
  mkSession true false None Imap None false None.

(** The response of /auth/status. *)
Record authStatus := mkAuthStatus {
  as_authenticated : bool;
  as_user : option userInfo
}.

(** The response of /auth/microsoft/status; [email] may be absent. *)
Record msStatus := mkMsStatus {
  ms_connected : bool;
  ms_email : option string
}.

(** [email.split("@")[0]] *)
Fixpoint beforeAt (s : string) : string :=
  match s with
  | EmptyString => EmptyString
  | String a rest => if Ascii.eqb a "@" then EmptyString else String a (beforeAt rest)
  end.

Definition setAuth (loading authenticated : bool) (u : option userInfo) (s : session) : session :=
  mkSession loading authenticated u (authMethodOf s) (sessionError s) (loginLoading s)
            (sessionNotice s).

Definition setAuthMethod (m : authMethod) (s : session) : session :=
  mkSession (auth_loading s) (auth_authenticated s) (auth_user s) m (sessionError s)
            (loginLoading s) (sessionNotice s).

Definition setSessionError (e : option string) (s : session) : session :=
  mkSession (auth_loading s) (auth_authenticated s) (auth_user s) (authMethodOf s) e
            (loginLoading s) (sessionNotice s).



Definition authStatusRequest : request := mkRequest GET "/auth/status" [] [].
Definition msStatusRequest : request := mkRequest GET "/auth/microsoft/status" [] [].
Definition foldersRequest : request := mkRequest GET "/api/folders" [] [].

(** [loadFolders(); loadEmails();]: the request each starts with. *)
Definition initialLoads : list request :=
  [foldersRequest; emailsRequest (liveParams None 0 "" (mkInboxFilters "" "" ""))].

(** The second half of [checkAuth], reached when the IMAP session is not
    authenticated; [ms] is consulted after [fetch(..).catch(() => null)]. *)
Definition checkMicrosoft (ms : fetched msStatus) (s : session)
    : outcome (session * list request) :=
  match ms with
  | NetworkError | HttpError _ => Return (setAuth false false None s, [msStatusRequest])
  | BadJson => Throw "Unexpected token"
  | Json msData =>
      if ms_connected msData then
        match ms_email msData with
        | Some email =>
            Return (setAuth false true (Some (mkUserInfo (beforeAt email) email))
                      (setAuthMethod Oauth2 s),
                    msStatusRequest :: initialLoads)
        | None => Throw "Cannot read properties of undefined"
        end
      else Return (setAuth false false None s, [msStatusRequest])
  end.

(** [checkAuth].  A throw after [setAuthMethod("oauth2")] keeps that
    write; the requests already sent stay sent. *)
Definition checkAuth (st : fetched authStatus) (ms : fetched msStatus) (s : session)
    : session * list request :=
  let failed := fun s' => setSessionError (Some "Cannot connect to backend server")
                            (setAuth false false None s') in
  match fetch_json st with
  | Throw _ => (failed s, [authStatusRequest])
  | Return data =>
      if as_authenticated data then
        (setAuthMethod Imap (setAuth false true (as_user data) s),
         authStatusRequest :: initialLoads)
      else
        match checkMicrosoft ms s with
        | Return (s', reqs) => (s', authStatusRequest :: reqs)
        | Throw _ =>
            (failed (match ms with
                     | Json msData => if ms_connected msData then setAuthMethod Oauth2 s else s
                     | _ => s
                     end),
             [authStatusRequest; msStatusRequest])
        end
  end.





(** The state [logout] touches. *)
Record shell := mkShell {
  sessionOf : session;
  inboxOf : inbox;
  resourcesOf : resources;
  selectedEmail : option payload
}.

Definition logoutRequest (m : authMethod) : request :=
  match m with
  | Oauth2 => mkRequest POST "/auth/microsoft/logout" [] []
  | Imap => mkRequest POST "/auth/logout" [] []
  end.

(** [logout]: the request is awaited outside any [try]; its status is
    not read. *)
Definition logout (r : fetched unit) (sh : shell) : outcome shell * list request :=
  (if resolved r
   then Return (mkShell (setAuthMethod Imap (setAuth false false None (sessionOf sh)))
                        (mkInbox [] (paginationOf (inboxOf sh)) (emailsFromCache (inboxOf sh))
                                 (loading (inboxOf sh)) (error (inboxOf sh))
                                 (notification (inboxOf sh)))
                        (setStats None (setFolders [] (resourcesOf sh)))
                        None)
   else Throw "Failed to fetch",
   [logoutRequest (authMethodOf (sessionOf sh))]).

(** ** Pre-load of cached data on mount *)

Definition cachedEmailsRequest : request :=
  mkRequest GET "/api/emails" [("source", "cache")] [].

(** The effect run once on mount.  Both requests are sent together; the
    candidates response is read first, and a body that does not parse
    ends the effect before the emails response is read.  [dbEmails] is
    [dbStats.emails]. *)
Definition preload (cand : fetched (list candidate)) (em : fetched listing)
    (rc : recruit) (ib : inbox) (dbEmails : Z) : recruit * inbox * Z * list request :=
  let reqs := [candidatesRequest "" ""; cachedEmailsRequest] in
  let rc1 :=
    match cand with
    | Json data =>
        mkRecruit data (candidateNotesDraft rc) (selectedCandidateId rc)
                  (candidateProfile rc) (selectedCandidate rc) (profileNotesSaved rc)
                  (Z.of_nat (length data)) (recruitNotice rc)
    | _ => rc
    end in
  match cand with
  | BadJson => (rc1, ib, dbEmails, reqs)
  | _ =>
      match em with
      | Json data =>
          if has_emails data
          then (rc1, setListing (default [] (l_emails data)) 0 (num_or (l_total data) 0) true ib,
                num_or (l_total data) 0, reqs)
          else (rc1, ib, dbEmails, reqs)
      | _ => (rc1, ib, dbEmails, reqs)
      end
  end.

(** What happens to the inbox after mount: the pre-load, then listings. *)
Inductive inboxEvent :=
| Preloaded (em : fetched listing)
| Listed (seen : bool) (folderId : option string) (skip : Z) (search : string)
         (filters : inboxFilters) (live cache : fetched listing).

Definition inboxEventStep (e : inboxEvent) (ib : inbox) : inbox :=
  match e with
  | Preloaded em => snd (fst (fst (preload NetworkError em
                                     (mkRecruit [] ∅ None None None false 0 None) ib 0)))
  | Listed seen folderId k search filters live cache =>
      fst (loadEmails seen folderId k search filters live cache ib)
  end.

(** [handleSearch]: the explicit search; it reads the raw value and
    leaves the debounce timer alone. *)
Definition handleSearch (activeFolder : option string) (filters : inboxFilters)
    (s : debouncer) : list request :=
  [emailsRequest (liveParams activeFolder 0 (value s) filters)].

(** ** Candidates view *)

(** [[...new Set(l)]]: first occurrences, in order. *)
Definition uniq (l : list string) : list string :=
  fold_left (fun acc x => if existsb (String.eqb x) acc then acc else acc ++ [x]) l [].

(** [allTags]: the tags in use, each once. *)
Definition allTags (cs : list candidate) : list string :=
  uniq (flat_map tagsOf cs).

(** The options of the tag filter after "All Tags":
    [[...new Set([...SUGGESTED_TAGS, ...allTags])]]. *)
Definition tagFilterOptions (cs : list candidate) : list string :=
  uniq (SUGGESTED_TAGS ++ allTags cs).

(** A call of [loadCandidates] with its outcome. *)
Record candLoad := mkCandLoad {
  cl_search : string;
  cl_tag : string;
  cl_response : fetched (list candidate)
}.

Definition runCandLoads (ls : list candLoad) (s : recruit) : recruit :=
  fold_left (fun acc l => loadCandidates (cl_search l) (cl_tag l) (cl_response l) acc) ls s.

(** The load that last counted the whole database: successful, without
    search and without tag. *)
Definition countsAll (l : candLoad) : option Z :=
  match cl_response l with
  | Json data =>
      if negb (truthy (cl_search l)) && negb (truthy (cl_tag l))
      then Some (Z.of_nat (length data)) else None
  | _ => None
  end.

Fixpoint lastCount (ls : list candLoad) (init : Z) : Z :=
  match ls with
  | [] => init
  | l :: rest => lastCount rest (default init (countsAll l))
  end.

(** ** Desktop shell: waiting for the backend *)

(** One [http.get] on the backend: a response with a status code, or the
    error event. *)
Inductive probe :=
| Responded (statusCode : Z)
| ProbeError.

Inductive startup :=
| Ready
| Failed (message : string).

(** [check(n)], entered at attempt [i]; returns the result and the
    number of probes made from here on. *)
Fixpoint check (probes : nat -> probe) (i n : nat) : startup * nat :=
  match probes i with
  | Responded code =>
      if code =? 200 then (Ready, 1%nat)
      else match n with
           | S n' => let '(r, k) := check probes (S i) n' in (r, S k)
           | O => (Failed "Backend failed to start", 1%nat)
           end
  | ProbeError =>
      match n with
      | S n' => let '(r, k) := check probes (S i) n' in (r, S k)
      | O => (Failed "Backend not responding", 1%nat)
      end
  end.

(** [waitForBackend(retries = 30)] *)
Definition waitForBackend (retries : nat) (probes : nat -> probe) : startup * nat :=
  check probes 0 retries.

(** The time spent waiting, in ms, when [k] probes were made: 3000
    before the first and 1500 before each retry. *)
Definition waitedMs (k : nat) : Z := 3000 + 1500 * (Z.of_nat k - 1).

(** * Properties *)

(** ** Scheduler toggle *)

Lemma loadSchedulerConfig_total (r : fetched schedulerStatus) (s : scheduler) :
  loadSchedulerConfig r s = s \/ exists data, r = Json data.
Proof. destruct r; simpl; eauto. Qed.

(** C7: a click on the scheduler toggle sends nothing while a toggle is
    in flight, and otherwise exactly one request that changes server
    state: a POST to /api/scheduler/config whose body carries the flag
    the server last reported, flipped, together with the three form
    values (interval_minutes as it stands, folder or "INBOX" when empty,
    subject_filter or null when empty); the only other request is the
    reload of the status after a successful post. *)
Theorem toggle_persists_flag_and_form_together
    (post : fetched unit) (reload : fetched schedulerStatus)
    (config : option schedulerStatus) (form : schedulerForm) (busy : bool)
    (countdown : option Z) (notice0 : option notice) :
  let s := mkScheduler config form busy countdown notice0 in
  let wasEnabled :=
    match config with
    | Some sc => match enabled sc with Some b => b | None => false end
    | None => false
    end in
  let update :=
    mkRequest POST "/api/scheduler/config" []
      [ ("enabled", JBool (negb wasEnabled));
        ("interval_minutes", JNum (interval_minutes form));
        ("folder", JStr (if String.eqb (folder form) "" then "INBOX" else folder form));
        ("subject_filter",
         if String.eqb (subject_filter form) "" then JNull else JStr (subject_filter form)) ] in
  snd (toggleScheduler post reload s) =
    (if busy then []
     else update :: match post with
                    | NetworkError | HttpError _ => []
                    | _ => [mkRequest GET "/api/scheduler/status" [] []]
                    end)
  /\ List.filter (fun r => match req_method r with GET => false | _ => true end)
       (snd (toggleScheduler post reload s))
     = (if busy then [] else [update]).
Proof.
  unfold toggleScheduler, schedulerConfigRequest, schedulerConfigBody, isEnabled, or_str,
    str_or_null, truthy.
  simpl. destruct busy; [auto|].
  assert (Hflag : match config with
                  | Some sc => default false (enabled sc)
                  | None => false
                  end
                  = match config with
                    | Some sc => match enabled sc with Some b => b | None => false end
                    | None => false
                    end).
  { destruct config as [sc|]; [destruct (enabled sc)|]; reflexivity. }
  rewrite Hflag.
  destruct (String.eqb (folder form) ""), (String.eqb (subject_filter form) "");
    destruct post; simpl; auto.
Qed.

(** The scenario of the specification: Disabled, interval 30. *)
Example toggle_disabled_to_enabled_30 :
  let s := mkScheduler (Some (mkSchedulerStatus (Some false) (Some 30) (Some "INBOX") None None))
                       (mkSchedulerForm 30 "INBOX" "") false None None in
  snd (toggleScheduler (Json tt) BadJson s) =
    [ mkRequest POST "/api/scheduler/config" []
        [ ("enabled", JBool true); ("interval_minutes", JNum 30);
          ("folder", JStr "INBOX"); ("subject_filter", JNull) ];
      schedulerStatusRequest ].
Proof. reflexivity. Qed.

(** Enabled to Disabled, with a subject filter typed in and the folder
    left empty. *)
Example toggle_enabled_to_disabled_with_filter :
  let s := mkScheduler (Some (mkSchedulerStatus (Some true) (Some 60) (Some "INBOX") None None))
                       (mkSchedulerForm 60 "" "resume") false (Some 120) None in
  snd (toggleScheduler (HttpError 500) BadJson s) =
    [ mkRequest POST "/api/scheduler/config" []
        [ ("enabled", JBool false); ("interval_minutes", JNum 60);
          ("folder", JStr "INBOX"); ("subject_filter", JStr "resume") ] ].
Proof. reflexivity. Qed.

(** A failed toggle leaves configuration and form as they were. *)
Lemma toggle_failure_keeps_config (post : fetched unit) (reload : fetched schedulerStatus)
    (s : scheduler) :
  res_ok post = false ->
  schedulerConfig (fst (toggleScheduler post reload s)) = schedulerConfig s /\
  schedulerFormOf (fst (toggleScheduler post reload s)) = schedulerFormOf s.
Proof.
  intros Hok. unfold toggleScheduler.
  destruct (schedulerLoading s); [auto|]. rewrite Hok. auto.
Qed.

(** ** Clear-all-data modal *)

Lemma deleteDisabled_spec (m : clearModal) :
  deleteDisabled m = false <-> clearConfirmText m = "CONFIRM".
Proof.
  unfold deleteDisabled. rewrite negb_false_iff. apply String.eqb_eq.
Qed.

(** C8: a click on "Delete Everything" issues the DELETE request exactly
    when the confirmation input holds the literal CONFIRM; for any other
    text the button is disabled, the click changes nothing and sends
    nothing; the lowercase text leaves the button disabled. *)
Theorem clear_data_requires_exact_CONFIRM (del : fetched unit) (m : clearModal) :
  existsb (fun r => match req_method r with DELETE => true | _ => false end)
          (snd (clickDeleteEverything del m))
    = String.eqb (clearConfirmText m) "CONFIRM"
  /\ (if String.eqb (clearConfirmText m) "CONFIRM"
      then deleteDisabled m = false
      else deleteDisabled m = true /\ clickDeleteEverything del m = (m, []))
  /\ deleteDisabled (typeConfirmText "confirm" m) = true.
Proof.
  unfold clickDeleteEverything, deleteDisabled, clearDataHandler.
  destruct (String.eqb (clearConfirmText m) "CONFIRM") eqn:E; simpl.
  - destruct (res_ok del); simpl; auto.
  - auto.
Qed.

(** The guard is evaluated on the text as typed, letter for letter. *)
Example clear_data_lowercase_sends_nothing :
  let m := typeConfirmText "confirm" (mkClearModal "" true None) in
  clickDeleteEverything (Json tt) m = (m, []).
Proof. reflexivity. Qed.

Example clear_data_CONFIRM_sends_delete :
  snd (clickDeleteEverything (Json tt) (typeConfirmText "CONFIRM" (mkClearModal "" true None)))
    = [clearDataRequest; storageHealthRequest].
Proof. reflexivity. Qed.

(** ** Unread notification count *)

Lemma clickNotification_count (n : notif) (patch : fetched unit) (s : notifState) :
  unreadCount (fst (clickNotification n patch s)) =
    if n_is_read n then unreadCount s else Z.max 0 (unreadCount s - 1).
Proof. unfold clickNotification. destruct (n_is_read n); reflexivity. Qed.

Lemma markAllRead_count (patch : fetched unit) (reload : fetched (list notif)) (s : notifState) :
  unreadCount (fst (markAllRead patch reload s)) =
    if resolved patch then 0 else unreadCount s.
Proof.
  unfold markAllRead. destruct (resolved patch); [|reflexivity].
  destruct reload; reflexivity.
Qed.

(** The claim as written has "mark all read" zero the count whatever
    becomes of the request; with a request that cannot be sent the count
    stays at 5. *)
Lemma markAllRead_not_before_request :
  let s := mkNotifState [] 5 0 [] true in
  unreadCount (fst (markAllRead NetworkError (Json []) s)) = 5 /\
  ~ (forall patch reload, unreadCount (fst (markAllRead patch reload s)) = 0).
Proof.
  split; [reflexivity|].
  intros H. specialize (H NetworkError (Json [])). discriminate H.
Qed.

(** C10 (amended): under the two mark-read handlers a non-negative unread
    count stays non-negative.  A click on an unread notification
    decrements it, floored at zero, whatever the outcome of the request; a
    click on a read one leaves it unchanged; "mark all read" sets it to
    zero once the request has resolved (with any status) and leaves it
    unchanged when the request could not be sent. *)
Theorem unread_count_handlers (n : notif) (patch : fetched unit)
    (reload : fetched (list notif)) (s : notifState) :
  0 <= unreadCount s ->
  unreadCount (fst (clickNotification n patch s)) =
    (if n_is_read n then unreadCount s else Z.max 0 (unreadCount s - 1))
  /\ unreadCount (fst (markAllRead patch reload s)) =
       (if resolved patch then 0 else unreadCount s)
  /\ 0 <= unreadCount (fst (clickNotification n patch s))
  /\ 0 <= unreadCount (fst (markAllRead patch reload s)).
Proof.
  intros Hs. rewrite clickNotification_count, markAllRead_count.
  repeat split.
  - destruct (n_is_read n); lia.
  - destruct (resolved patch); lia.
Qed.

Lemma unread_count_handlers_witness :
  let s := mkNotifState [mkNotif 7 "new_candidate" "New" "" false] 1 0 [] true in
  let n := mkNotif 7 "new_candidate" "New" "" false in
  0 <= unreadCount s
  /\ unreadCount (fst (clickNotification n (HttpError 500) s)) = 0
  /\ unreadCount (fst (markAllRead (HttpError 500) BadJson s)) = 0.
Proof.
  pose proof (unread_count_handlers (mkNotif 7 "new_candidate" "New" "" false)
                (HttpError 500) BadJson
                (mkNotifState [mkNotif 7 "new_candidate" "New" "" false] 1 0 [] true)) as H.
  simpl in H.
  assert (H0 : 0 <= 1) by lia.
  destruct (H H0) as (H1 & H2 & _ & _).
  split; [exact H0|]. split; [exact H1 | exact H2].
Defined.

Lemma unread_count_never_negative (es : list notifEvent) (s : notifState) :
  0 <= unreadCount s -> 0 <= unreadCount (fold_left (fun acc e => notifStep e acc) es s).
Proof.
  revert s. induction es as [|e es IH]; intros s Hs; simpl; [exact Hs|].
  apply IH. destruct e as [n patch | patch reload]; simpl.
  - rewrite clickNotification_count. destruct (n_is_read n); lia.
  - rewrite markAllRead_count. destruct (resolved patch); lia.
Qed.

(** ** Email listing: cache fallback *)

Lemma params_get_set (k k' v : string) (ps : params) :
  params_get k' (params_set k v ps) =
    if String.eqb k k' then Some v else params_get k' ps.
Proof.
  induction ps as [|[k0 v0] ps IH]; simpl.
  - reflexivity.
  - destruct (String.eqb k0 k) eqn:E0; simpl.
    + apply String.eqb_eq in E0. subst k0.
      destruct (String.eqb k k'); reflexivity.
    + destruct (String.eqb k0 k') eqn:E1.
      * apply String.eqb_eq in E1. subst k0.
        rewrite String.eqb_sym, E0. reflexivity.
      * exact IH.
Qed.

Lemma params_get_set_if (k k' v : string) (ps : params) :
  params_get k' (set_if k v ps) =
    if String.eqb k k' && truthy v then Some v else params_get k' ps.
Proof.
  unfold set_if. destruct (truthy v).
  - rewrite params_get_set, andb_true_r. reflexivity.
  - rewrite andb_false_r. reflexivity.
Qed.

Ltac params_simpl :=
  unfold liveParams, cacheParams, set_if_opt;
  repeat match goal with
         | |- context [match ?o with Some _ => _ | None => _ end] => destruct o
         end;
  repeat rewrite params_get_set_if; simpl.

(** What the fallback request carries over from the live request. *)
Lemma cacheParams_same_filters (folderId : option string) (k : Z) (search : string)
    (filters : inboxFilters) :
  let live := liveParams folderId k search filters in
  let cache := cacheParams folderId k search filters in
  params_get "skip" cache = params_get "skip" live
  /\ params_get "top" cache = params_get "top" live
  /\ params_get "folder_id" cache = params_get "folder_id" live
  /\ params_get "search" cache = params_get "search" live
  /\ params_get "sender" cache = params_get "sender" live
  /\ params_get "source" cache = Some "cache"
  /\ params_get "source" live = None.
Proof.
  simpl. repeat split; params_simpl; reflexivity.
Qed.

Lemma loadEmails_live_first (seen : bool) (folderId : option string) (k : Z) (search : string)
    (filters : inboxFilters) (live cache : fetched listing) (s : inbox) :
  hd_error (snd (loadEmails seen folderId k search filters live cache s))
    = Some (emailsRequest (liveParams folderId k search filters)).
Proof.
  unfold loadEmails.
  destruct live; simpl; try reflexivity;
    destruct (cacheFallback _ _ _ _ _ _ _); reflexivity.
Qed.

(** A successful live fetch supersedes whatever was shown and clears the
    cached flag; nothing else is requested. *)
Lemma loadEmails_live_success (seen : bool) (folderId : option string) (k : Z) (search : string)
    (filters : inboxFilters) (data : listing) (cache : fetched listing) (s : inbox) :
  let r := loadEmails seen folderId k search filters (Json data) cache s in
  snd r = [emailsRequest (liveParams folderId k search filters)]
  /\ emails (fst r) = default [] (l_emails data)
  /\ paginationOf (fst r) = mkPagination k 25 (num_or (l_total data) 0)
  /\ emailsFromCache (fst r) = false.
Proof. simpl. auto. Qed.

(** When the live fetch fails and the handler sees the cached flag set,
    no fallback is issued and list, pagination and flag stay. *)
Lemma loadEmails_already_cached (folderId : option string) (k : Z) (search : string)
    (filters : inboxFilters) (live cache : fetched listing) (s : inbox) :
  succeeded live = false ->
  let r := loadEmails true folderId k search filters live cache s in
  snd r = [emailsRequest (liveParams folderId k search filters)]
  /\ emails (fst r) = emails s
  /\ paginationOf (fst r) = paginationOf s
  /\ emailsFromCache (fst r) = emailsFromCache s.
Proof.
  intros Hlive. unfold loadEmails, cacheFallback.
  destruct live; try discriminate; simpl; auto.
Qed.

(** The claim as written has the fallback carry the date range of the live
    request, and has it issued whenever the emails shown are not from
    cache.  With a lower date bound set, the live query has it and the
    fallback query does not.  And after a logout that followed a cached
    listing no email is shown, yet the flag is still set and a failed
    live fetch sends no fallback at all. *)
Lemma cache_request_drops_date_range :
  let filters := mkInboxFilters "2026-01-01" "2026-01-31" "hr@example.com" in
  let reqs := snd (loadEmails false (Some "INBOX") 0 "resume" filters NetworkError BadJson
                     initialInbox) in
  let cached := mkInbox [mkEmail "m1" "Application" false] (mkPagination 0 25 1) true false
                        None None in
  let sh := mkShell (mkSession false true None Imap None false None) cached
                    (mkResources [] None [] [] [] None None false None None []) None in
  (exists liveReq cacheReq,
    reqs = [liveReq; cacheReq]
    /\ params_get "source" (req_query cacheReq) = Some "cache"
    /\ params_get "from_date" (req_query liveReq) = Some "2026-01-01"
    /\ params_get "from_date" (req_query cacheReq) = None
    /\ params_get "to_date" (req_query liveReq) = Some "2026-01-31"
    /\ params_get "to_date" (req_query cacheReq) = None)
  /\ match fst (logout (Json tt) sh) with
     | Return sh' =>
         emails (inboxOf sh') = []
         /\ emailsFromCache (inboxOf sh') = true
         /\ snd (loadEmails (emailsFromCache (inboxOf sh')) None 0 "" (mkInboxFilters "" "" "")
                   NetworkError
                   (Json (mkListing (Some [mkEmail "m1" "Application" false]) (Some 1)))
                   (inboxOf sh'))
            = [emailsRequest [("skip", "0"); ("top", "25")]]
     | Throw _ => False
     end.
Proof.
  simpl. split.
  - eexists _, _. split; [reflexivity|]. repeat split.
  - repeat split.
Qed.

(** C1 (amended): every listing request starts with the live fetch.  When
    it fails and the cached flag the handler reads is not set, one more
    request follows, against the same endpoint with the same skip, page
    size, folder, search and sender plus source=cache, and the cached
    listing is adopted (list and pagination replaced, flag raised, banner
    shown) exactly when that request succeeds with at least one email.
    When it fails and the flag read is set, nothing more is requested.
    Whenever no cached listing is adopted, list, pagination, flag and
    banner stay as they were. *)
Theorem cache_fallback_adoption (seen : bool) (folderId : option string) (k : Z)
    (search : string) (filters : inboxFilters) (live cache : fetched listing) (s : inbox) :
  succeeded live = false ->
  let r := loadEmails seen folderId k search filters live cache s in
  let q := cacheParams folderId k search filters in
  let present := fun v : string => if String.eqb v "" then None else Some v in
  let adopted :=
    negb seen && match cache with
                 | Json cData => match l_emails cData with Some (_ :: _) => true | _ => false end
                 | _ => false
                 end in
  hd_error (snd r) = Some (emailsRequest (liveParams folderId k search filters))
  /\ snd r = emailsRequest (liveParams folderId k search filters)
             :: (if seen then [] else [mkRequest GET "/api/emails" q []])
  /\ (params_get "source" q = Some "cache"
      /\ params_get "skip" q = Some (pretty k)
      /\ params_get "top" q = Some "25"
      /\ params_get "folder_id" q = match folderId with Some f => present f | None => None end
      /\ params_get "search" q = present search
      /\ params_get "sender" q = present (sender filters))
  /\ emailsFromCache (fst r) = adopted || emailsFromCache s
  /\ cacheBanner (fst r) = (if adopted then true else cacheBanner s)
  /\ emails (fst r) =
       (if adopted
        then match cache with
             | Json cData => match l_emails cData with Some es => es | None => [] end
             | _ => []
             end
        else emails s)
  /\ paginationOf (fst r) =
       (if adopted
        then match cache with
             | Json cData =>
                 mkPagination k 25 (match l_total cData with
                                    | Some t => if t =? 0 then 0 else t
                                    | None => 0
                                    end)
             | _ => paginationOf s
             end
        else paginationOf s).
Proof.
  intros Hlive r q present adopted.
  assert (Hq : params_get "source" q = Some "cache"
      /\ params_get "skip" q = Some (pretty k)
      /\ params_get "top" q = Some "25"
      /\ params_get "folder_id" q = match folderId with Some f => present f | None => None end
      /\ params_get "search" q = present search
      /\ params_get "sender" q = present (sender filters)).
  { subst q present. unfold truthy.
    repeat split; params_simpl; unfold truthy;
      repeat match goal with
             | |- context [String.eqb ?v ""] => destruct (String.eqb v "")
             end; reflexivity. }
  destruct Hq as (Hq1 & Hq2 & Hq3 & Hq4 & Hq5 & Hq6).
  subst r adopted. unfold loadEmails, cacheFallback, cacheBanner.
  destruct live; try discriminate; simpl;
    (destruct seen; simpl;
     [ repeat match goal with |- _ /\ _ => split end; auto
     | destruct cache as [| | |cData]; simpl;
       [ repeat match goal with |- _ /\ _ => split end; auto ..
       | unfold has_emails; destruct (l_emails cData) as [[|e es]|]; simpl;
         repeat match goal with |- _ /\ _ => split end; auto ] ]).
Qed.

Lemma cache_fallback_adoption_witness :
  let e := mkEmail "m1" "Application" false in
  let r := loadEmails false None 25 "anna" (mkInboxFilters "" "" "") (HttpError 503)
             (Json (mkListing (Some [e]) (Some 12))) initialInbox in
  emailsFromCache (fst r) = true /\ cacheBanner (fst r) = true
  /\ length (snd r) = 2%nat.
Proof.
  pose proof (cache_fallback_adoption false None 25 "anna" (mkInboxFilters "" "" "")
                (HttpError 503)
                (Json (mkListing (Some [mkEmail "m1" "Application" false]) (Some 12)))
                initialInbox eq_refl) as H.
  simpl in H. destruct H as (_ & _ & _ & Hflag & Hbanner & _ & _).
  simpl. split; [exact Hflag|]. split; [exact Hbanner|]. reflexivity.
Defined.

(** ** Email listing: pagination *)

Lemma loadEmails_pagination (seen : bool) (folderId : option string) (k : Z) (search : string)
    (filters : inboxFilters) (live cache : fetched listing) (s : inbox) :
  paginationOf (fst (loadEmails seen folderId k search filters live cache s)) = paginationOf s
  \/ exists t, paginationOf (fst (loadEmails seen folderId k search filters live cache s))
                = mkPagination k 25 t.
Proof.
  unfold loadEmails, cacheFallback.
  destruct live; simpl; eauto;
    (destruct seen; simpl; auto;
     destruct cache as [| | |cData]; simpl; auto;
     destruct (has_emails cData); simpl; eauto).
Qed.

Lemma loadEmails_requests_nonempty (seen : bool) (folderId : option string) (k : Z)
    (search : string) (filters : inboxFilters) (live cache : fetched listing) (s : inbox) :
  snd (loadEmails seen folderId k search filters live cache s) <> [].
Proof.
  pose proof (loadEmails_live_first seen folderId k search filters live cache s) as H.
  intros E. rewrite E in H. discriminate H.
Qed.

(** The pagination a listing leaves: the one of the response applied, if
    any. *)
Lemma loadEmails_pagination_exact (seen : bool) (folderId : option string) (k : Z)
    (search : string) (filters : inboxFilters) (live cache : fetched listing) (s : inbox) :
  let reported := fun d : listing =>
    match l_total d with Some t => if t =? 0 then 0 else t | None => 0 end in
  paginationOf (fst (loadEmails seen folderId k search filters live cache s)) =
    match live with
    | Json d => mkPagination k 25 (reported d)
    | _ =>
        if seen then paginationOf s
        else match cache with
             | Json c =>
                 match l_emails c with
                 | Some (_ :: _) => mkPagination k 25 (reported c)
                 | _ => paginationOf s
                 end
             | _ => paginationOf s
             end
    end.
Proof.
  unfold loadEmails, cacheFallback.
  destruct live; simpl; try reflexivity;
    (destruct seen; simpl; try reflexivity;
     destruct cache as [| | |c]; simpl; try reflexivity;
     unfold has_emails; destruct (l_emails c) as [[|e es]|]; reflexivity).
Qed.

(** The claim as written bounds skip + top by the total after every
    listing response.  A mailbox of 10 emails already gives skip + top =
    25 > 10; and a refresh of the second page after the mailbox shrank
    leaves skip itself beyond the total. *)
Lemma pagination_window_exceeds_total :
  let e := mkEmail "m1" "Application" false in
  let nofilter := mkInboxFilters "" "" "" in
  let s1 := fst (loadEmails false None 0 "" nofilter (Json (mkListing (Some [e]) (Some 10)))
                   BadJson initialInbox) in
  let s2 := fst (inboxStep NextPage None "" nofilter (Json (mkListing (Some [e]) (Some 40))) BadJson
                   (fst (loadEmails false None 0 "" nofilter
                           (Json (mkListing (Some [e]) (Some 40))) BadJson initialInbox))) in
  let s3 := fst (inboxStep (Reload false) None "" nofilter (Json (mkListing (Some [e]) (Some 10)))
                   BadJson s2) in
  total (paginationOf s1) < skip (paginationOf s1) + top (paginationOf s1)
  /\ skip (paginationOf s3) = 25 /\ total (paginationOf s3) = 10.
Proof. simpl. repeat split. Qed.

(** C9 (amended): the pagination a listing leaves is the skip requested,
    a page size of 25 and the total reported (0 when absent) whenever a
    response is applied, live or adopted from cache, and the former
    pagination otherwise; the range shown runs from skip + 1 to
    min(skip + top, total) and so never ends beyond the total last
    reported; the next-page action is available, and issues a fetch,
    exactly when skip + 25 < total, and the fetch then asks for
    skip + 25; the previous-page action is available, and issues a fetch,
    exactly when skip > 0, and the fetch then asks for max(0, skip - 25);
    and skip never becomes negative. *)
Theorem pagination_controls (a : inboxAction) (seen : bool) (folderId activeFolder : option string)
    (k : Z) (search searchQuery : string) (filters : inboxFilters)
    (live cache : fetched listing) (s : inbox) :
  0 <= skip (paginationOf s) ->
  let p := paginationOf s in
  let reported := fun d : listing =>
    match l_total d with Some t => if t =? 0 then 0 else t | None => 0 end in
  paginationOf (fst (loadEmails seen folderId k search filters live cache s)) =
    match live with
    | Json d => mkPagination k 25 (reported d)
    | _ =>
        if seen then p
        else match cache with
             | Json c =>
                 match l_emails c with
                 | Some (_ :: _) => mkPagination k 25 (reported c)
                 | _ => p
                 end
             | _ => p
             end
    end
  /\ shownRange p = (skip p + 1, Z.min (skip p + top p) (total p))
  /\ snd (shownRange p) <= total p
  /\ nextEnabled p = (skip p + 25 <? total p)
  /\ prevEnabled p = (0 <? skip p)
  /\ clickNext activeFolder searchQuery filters live cache s =
       (if paginationRendered s && (skip p + 25 <? total p)
        then loadEmails (emailsFromCache s) activeFolder (skip p + 25) searchQuery filters
                        live cache s
        else (s, []))
  /\ clickPrev activeFolder searchQuery filters live cache s =
       (if paginationRendered s && (0 <? skip p)
        then loadEmails (emailsFromCache s) activeFolder (Z.max 0 (skip p - 25)) searchQuery
                        filters live cache s
        else (s, []))
  /\ (snd (clickNext activeFolder searchQuery filters live cache s) <> []
      <-> paginationRendered s = true /\ skip p + 25 < total p)
  /\ (snd (clickPrev activeFolder searchQuery filters live cache s) <> []
      <-> paginationRendered s = true /\ 0 < skip p)
  /\ 0 <= skip (paginationOf (fst (inboxStep a activeFolder searchQuery filters live cache s))).
Proof.
  intros Hskip p reported. fold p in Hskip.
  assert (Hnext : nextEnabled p = (skip p + 25 <? total p)).
  { unfold nextEnabled. generalize (skip p) (total p). intros k0 t. rewrite Z.geb_leb.
    destruct (Z.leb_spec t (k0 + 25)), (Z.ltb_spec (k0 + 25) t);
      simpl; auto; exfalso; lia. }
  assert (Hprev : prevEnabled p = (0 <? skip p)).
  { unfold prevEnabled. revert Hskip. generalize (skip p). intros k0 Hk.
    destruct (Z.eqb_spec k0 0), (Z.ltb_spec 0 k0); simpl; auto; exfalso; lia. }
  assert (HcN : clickNext activeFolder searchQuery filters live cache s =
                (if paginationRendered s && (skip p + 25 <? total p)
                 then loadEmails (emailsFromCache s) activeFolder (skip p + 25) searchQuery
                                 filters live cache s
                 else (s, []))).
  { unfold clickNext. fold p. rewrite Hnext.
    destruct (paginationRendered s), (skip p + 25 <? total p); reflexivity. }
  assert (HcP : clickPrev activeFolder searchQuery filters live cache s =
                (if paginationRendered s && (0 <? skip p)
                 then loadEmails (emailsFromCache s) activeFolder (Z.max 0 (skip p - 25))
                                 searchQuery filters live cache s
                 else (s, []))).
  { unfold clickPrev. fold p. rewrite Hprev.
    destruct (paginationRendered s), (0 <? skip p); reflexivity. }
  repeat match goal with |- _ /\ _ => split end; auto.
  - apply loadEmails_pagination_exact.
  - unfold shownRange. simpl. lia.
  - rewrite HcN. destruct (paginationRendered s); simpl.
    + destruct (Z.ltb_spec (skip p + 25) (total p)).
      * split; [auto|]. intros _. apply loadEmails_requests_nonempty.
      * split; [intros H'; exfalso; apply H'; reflexivity | intros [_ H']; lia].
    + split; [intros H'; exfalso; apply H'; reflexivity | intros [H' _]; discriminate].
  - rewrite HcP. destruct (paginationRendered s); simpl.
    + destruct (Z.ltb_spec 0 (skip p)).
      * split; [auto|]. intros _. apply loadEmails_requests_nonempty.
      * split; [intros H'; exfalso; apply H'; reflexivity | intros [_ H']; lia].
    + split; [intros H'; exfalso; apply H'; reflexivity | intros [H' _]; discriminate].
  - assert (Hload : forall sn k0, 0 <= k0 ->
              0 <= skip (paginationOf (fst (loadEmails sn activeFolder k0 searchQuery filters
                                              live cache s)))).
    { intros sn k0 Hk.
      destruct (loadEmails_pagination sn activeFolder k0 searchQuery filters live cache s)
        as [E|[t E]]; rewrite E; simpl; auto. }
    destruct a as [[|]| |]; simpl.
    + apply Hload; lia.
    + apply Hload; exact Hskip.
    + rewrite HcP. destruct (paginationRendered s && (0 <? skip p)); [apply Hload; lia | exact Hskip].
    + rewrite HcN. destruct (paginationRendered s && (skip p + 25 <? total p));
        [apply Hload; lia | exact Hskip].
Qed.

Lemma pagination_controls_witness :
  let e := mkEmail "m1" "Application" false in
  let s := mkInbox [e] (mkPagination 25 25 60) false false None None in
  nextEnabled (paginationOf s) = true /\ prevEnabled (paginationOf s) = true
  /\ snd (shownRange (paginationOf s)) = 50
  /\ paginationOf (fst (loadEmails false None 50 "" (mkInboxFilters "" "" "")
                          (Json (mkListing (Some [e]) (Some 60))) BadJson s))
     = mkPagination 50 25 60.
Proof.
  pose proof (pagination_controls NextPage false None None 50 "" "" (mkInboxFilters "" "" "")
                (Json (mkListing (Some [mkEmail "m1" "Application" false]) (Some 60))) BadJson
                (mkInbox [mkEmail "m1" "Application" false] (mkPagination 25 25 60)
                         false false None None)) as H.
  simpl in H.
  assert (H0 : 0 <= 25) by lia.
  destruct (H H0) as (Hpag & _ & _ & Hn & Hp & _).
  simpl. split; [exact Hn|]. split; [exact Hp|]. split; [reflexivity | exact Hpag].
Defined.

(** ** Notification poller *)






(** ** Resource loaders *)

(** The claim as written has every loader keep its slice and raise a
    notice on failure.  [loadMatchResults] empties its slice and raises
    none, and [loadFolders] raises none either. *)
Lemma loader_failure_not_uniform :
  let s := mkResources ["Inbox"] None [] [] ["r1"; "r2"] None None false None None [] in
  matchResults (loadMatchResults (HttpError 500) s) = []
  /\ matchResults s = ["r1"; "r2"]
  /\ resNotice (loadMatchResults (HttpError 500) s) = None
  /\ resNotice (loadFolders NetworkError s) = None.
Proof. simpl. repeat split. Qed.

(** C5 (amended): every loader catches its own failure and returns a
    state; on success it replaces its slice by the payload.  On failure
    the folders, stats, attachments, candidates, jobs, notifications,
    unread-count, storage-health and scheduler slices keep their value,
    the emails slice keeps its value unless the cache fallback adopts a
    non-empty cached listing, and the match-results slice is emptied.  A
    notice is raised on failure by the emails, stats, attachments,
    candidates, jobs and storage-health loaders only; the folders loader
    writes one line to the console instead, and the match-results,
    notifications, unread-count and scheduler loaders are silent. *)
Theorem loaders_catch_locally
    (res : resources) (rc : recruit) (ns : notifState) (sch : scheduler) (ib : inbox)
    (rFolders rAtt rJobs : fetched (list payload)) (rStats rHealth : fetched payload)
    (rMatch : fetched (option (list payload))) (rCand : fetched (list candidate))
    (rNotifs : fetched (list notif)) (rCount : fetched countData)
    (rSched : fetched schedulerStatus) (rLive rCache : fetched listing)
    (seen : bool) (folderId : option string) (k at_ : Z) (search tagF typeFilter : string)
    (filters : inboxFilters) :
  (folders (loadFolders rFolders res)
     = match rFolders with Json d => d | _ => folders res end
   /\ resNotice (loadFolders rFolders res) = resNotice res
   /\ match rFolders with
      | Json _ => consoleErrors (loadFolders rFolders res) = consoleErrors res
      | HttpError status =>
          consoleErrors (loadFolders rFolders res)
          = consoleErrors res ++ ["Failed to load folders: HTTP " +:+ pretty status]
      | _ =>
          exists e, consoleErrors (loadFolders rFolders res)
                    = consoleErrors res ++ ["Failed to load folders: " +:+ e]
      end)
  /\ (stats (loadStats rStats res)
        = match rStats with Json d => Some d | _ => stats res end
      /\ resNotice (loadStats rStats res)
        = match rStats with
          | Json _ => resNotice res
          | _ => Some ("Failed to load stats", "error")
          end
      /\ consoleErrors (loadStats rStats res) = consoleErrors res)
  /\ (storedAttachments (loadAttachments typeFilter rAtt res)
        = match rAtt with Json d => d | _ => storedAttachments res end
      /\ resNotice (loadAttachments typeFilter rAtt res)
        = match rAtt with
          | Json _ => resNotice res
          | _ => Some ("Failed to load attachments", "error")
          end)
  /\ (jobs (loadJobs rJobs res) = match rJobs with Json d => d | _ => jobs res end
      /\ resNotice (loadJobs rJobs res)
        = match rJobs with
          | Json _ => resNotice res
          | _ => Some ("Failed to load jobs", "error")
          end)
  /\ (matchResults (loadMatchResults rMatch res)
        = match rMatch with Json (Some d) => d | _ => [] end
      /\ resNotice (loadMatchResults rMatch res) = resNotice res
      /\ consoleErrors (loadMatchResults rMatch res) = consoleErrors res)
  /\ (storageHealth (loadStorageHealth at_ rHealth res)
        = match rHealth with Json d => Some d | _ => storageHealth res end
      /\ resNotice (loadStorageHealth at_ rHealth res)
        = match rHealth with
          | Json _ => resNotice res
          | _ => Some ("Failed to load storage health", "error")
          end)
  /\ (candidates (loadCandidates search tagF rCand rc)
        = match rCand with Json d => d | _ => candidates rc end
      /\ recruitNotice (loadCandidates search tagF rCand rc)
        = match rCand with
          | Json _ => recruitNotice rc
          | _ => Some ("Failed to load candidates", "error")
          end)
  /\ (notifications (loadNotifications rNotifs ns)
        = match rNotifs with Json d => d | _ => notifications ns end
      /\ toasts (loadNotifications rNotifs ns) = toasts ns
      /\ unreadCount (loadNotifications rNotifs ns) = unreadCount ns)
  /\ (unreadCount (fst (loadNotificationCount rCount ns))
        = match rCount with
          | Json d => match unread_count d with
                      | Some c => c
                      | None => match count d with Some c => c | None => 0 end
                      end
          | _ => unreadCount ns
          end
      /\ toasts (fst (loadNotificationCount rCount ns)) = toasts ns
      /\ notifications (fst (loadNotificationCount rCount ns)) = notifications ns)
  /\ (schedulerConfig (loadSchedulerConfig rSched sch)
        = match rSched with Json d => Some d | _ => schedulerConfig sch end
      /\ schedulerNotice (loadSchedulerConfig rSched sch) = schedulerNotice sch)
  /\ (emails (fst (loadEmails seen folderId k search filters rLive rCache ib))
        = match rLive with
          | Json d => match l_emails d with Some es => es | None => [] end
          | _ =>
              if seen then emails ib
              else match rCache with
                   | Json c => match l_emails c with
                               | Some (e :: es) => e :: es
                               | _ => emails ib
                               end
                   | _ => emails ib
                   end
          end
      /\ notification (fst (loadEmails seen folderId k search filters rLive rCache ib))
        = match rLive with
          | Json _ => notification ib
          | _ => Some ("IMAP unavailable — showing cached emails", "error")
          end).
Proof.
  repeat match goal with |- _ /\ _ => split end.
  1-2: destruct rFolders; reflexivity.
  1: destruct rFolders; simpl; try reflexivity; eexists; reflexivity.
  1-3: destruct rStats; reflexivity.
  1-2: destruct rAtt; reflexivity.
  1-2: destruct rJobs; reflexivity.
  1-3: destruct rMatch as [| | |[d|]]; reflexivity.
  1-2: destruct rHealth; reflexivity.
  1-2: destruct rCand; try reflexivity;
       unfold loadCandidates, try_catch, fetch_json, mbind, outcome_bind;
       destruct (negb (truthy search) && negb (truthy tagF)); reflexivity.
  1-3: destruct rNotifs; reflexivity.
  1-3: destruct rCount; reflexivity.
  1-2: destruct rSched; reflexivity.
  all: unfold loadEmails, cacheFallback;
       destruct rLive as [| | |d]; simpl; try reflexivity;
       try (destruct (l_emails d); reflexivity);
       destruct seen; simpl; try reflexivity;
       destruct rCache as [| | |c]; simpl; try reflexivity;
       unfold has_emails; destruct (l_emails c) as [[|e es]|]; reflexivity.
Qed.

(** Loading the same payload twice gives the state of loading it once. *)
Lemma loadFolders_idempotent (r : fetched (list payload)) (s : resources) :
  folders (loadFolders r (loadFolders r s)) = folders (loadFolders r s).
Proof. destruct r; reflexivity. Qed.

Lemma loadStats_idempotent (r : fetched payload) (s : resources) :
  stats (loadStats r (loadStats r s)) = stats (loadStats r s).
Proof. destruct r; reflexivity. Qed.

(** ** Candidate notes *)

Lemma draftDiffers_spec (c : candidate) (s : recruit) (d : string) :
  draftDiffers c s = Some d <->
  candidateNotesDraft s !! c_id c = Some d /\ d <> notesOf c.
Proof.
  unfold draftDiffers.
  destruct (candidateNotesDraft s !! c_id c) as [d'|]; [|split; [discriminate | intros [H _]; discriminate]].
  destruct (String.eqb_spec d' (notesOf c)) as [E|E].
  - split; [discriminate|]. intros [H Hne]. inversion H. subst. contradiction.
  - split.
    + intros H. inversion H. subst. auto.
    + intros [H _]. exact H.
Qed.



(** ** Candidate tags *)

Section TagProperties.
Context {L : Lowercase}.

Lemma hasTagCI_app (tag : string) (l1 l2 : list string) :
  hasTagCI tag (l1 ++ l2) = hasTagCI tag l1 || hasTagCI tag l2.
Proof. unfold hasTagCI. apply existsb_app. Qed.

Lemma hasTagCI_single (t tag : string) :
  hasTagCI t [tag] = String.eqb (toLowerCase tag) (toLowerCase t).
Proof. unfold hasTagCI. simpl. apply orb_false_r. Qed.

Lemma noDupCI_snoc (current : list string) (tag : string) :
  noDupCI current = true -> hasTagCI tag current = false ->
  noDupCI (current ++ [tag]) = true.
Proof.
  induction current as [|t rest IH]; simpl; intros Hnd Hnew; [reflexivity|].
  apply andb_true_iff in Hnd. destruct Hnd as [Ht Hrest].
  apply orb_false_iff in Hnew. destruct Hnew as [Hne Hnew].
  apply andb_true_iff. split.
  - rewrite hasTagCI_app, hasTagCI_single, String.eqb_sym, Hne, orb_false_r. exact Ht.
  - apply IH; assumption.
Qed.

Lemma hasTagCI_filter (f : string -> bool) (t : string) (l : list string) :
  hasTagCI t (List.filter f l) = true -> hasTagCI t l = true.
Proof.
  induction l as [|x l IH]; simpl; [auto|].
  destruct (f x); simpl; intros H.
  - apply orb_true_iff in H. apply orb_true_iff. destruct H; auto.
  - apply orb_true_iff. auto.
Qed.

Lemma noDupCI_filter (f : string -> bool) (l : list string) :
  noDupCI l = true -> noDupCI (List.filter f l) = true.
Proof.
  induction l as [|x l IH]; simpl; [auto|]. intros H.
  apply andb_true_iff in H. destruct H as [Hx Hl].
  destruct (f x); simpl; [|auto].
  apply andb_true_iff. split; [|auto].
  apply negb_true_iff. apply negb_true_iff in Hx.
  destruct (hasTagCI x (List.filter f l)) eqn:E; [|reflexivity].
  apply hasTagCI_filter in E. congruence.
Qed.

Lemma findCandidate_clean (id : Z) (cs : list candidate) (c : candidate) :
  tagsClean cs -> findCandidate id cs = Some c -> noDupCI (tagsOf c) = true.
Proof.
  unfold tagsClean, findCandidate. intros Hcs Hfind.
  apply List.find_some in Hfind. destruct Hfind as [Hin _].
  rewrite List.Forall_forall in Hcs. apply Hcs. exact Hin.
Qed.

Lemma updateCandidate_clean (id : Z) (tags : list string) (cs : list candidate) :
  tagsClean cs -> noDupCI tags = true -> tagsClean (updateCandidate id (withTags tags) cs).
Proof.
  unfold tagsClean, updateCandidate. intros Hcs Ht.
  induction Hcs as [|c cs Hc Hcs IH]; simpl; constructor; auto.
  destruct (c_id c =? id); simpl; assumption.
Qed.

(** Adding a tag the candidate already carries up to case changes
    nothing and sends nothing. *)
Lemma addTag_duplicate_noop (id : Z) (tag : string) (patch : fetched unit) (s : recruit)
    (c : candidate) :
  findCandidate id (candidates s) = Some c ->
  hasTagCI tag (tagsOf c) = true ->
  addTagToCandidate id tag patch s = (s, []).
Proof.
  intros Hfind Hdup. unfold addTagToCandidate. rewrite Hfind, Hdup. reflexivity.
Qed.

(** The candidates list stays free of duplicates up to case under
    [addTagToCandidate] and [removeTagFromCandidate]. *)
Lemma addTag_list_clean (id : Z) (tag : string) (patch : fetched unit) (s : recruit) :
  tagsClean (candidates s) ->
  tagsClean (candidates (fst (addTagToCandidate id tag patch s))).
Proof.
  intros Hcs. unfold addTagToCandidate.
  destruct (findCandidate id (candidates s)) as [c|] eqn:Hfind; [|exact Hcs].
  destruct (hasTagCI tag (tagsOf c)) eqn:Hdup; [exact Hcs|].
  unfold saveCandidateTags. simpl. destruct (res_ok patch); simpl; [|exact Hcs].
  apply updateCandidate_clean; [exact Hcs|].
  apply noDupCI_snoc; [|exact Hdup].
  eapply findCandidate_clean; eassumption.
Qed.

Lemma removeTag_list_clean (id : Z) (tag : string) (patch : fetched unit) (s : recruit) :
  tagsClean (candidates s) ->
  tagsClean (candidates (fst (removeTagFromCandidate id tag patch s))).
Proof.
  intros Hcs. unfold removeTagFromCandidate.
  destruct (findCandidate id (candidates s)) as [c|] eqn:Hfind; [|exact Hcs].
  unfold saveCandidateTags. simpl. destruct (res_ok patch); simpl; [|exact Hcs].
  apply updateCandidate_clean; [exact Hcs|].
  apply noDupCI_filter. eapply findCandidate_clean; eassumption.
Qed.

(** The custom-tag updater of the profile view keeps a slice clean. *)
Lemma appendTagCI_clean (newTag : string) (p : candidate) :
  noDupCI (tagsOf p) = true ->
  match appendTagCI newTag (Some p) with
  | Some p' => noDupCI (tagsOf p') = true
  | None => False
  end.
Proof.
  intros Hp. simpl. destruct (hasTagCI newTag (tagsOf p)) eqn:E; [exact Hp|].
  simpl. apply noDupCI_snoc; assumption.
Qed.
End TagProperties.

(** C6: the suggested-tag button of the profile view appends to the
    [selectedCandidate] slice without the check the custom-tag input
    makes.  Open the profile of candidate 2 (tagged Shortlisted), then the
    profile of candidate 1 while the profile request fails: the view
    renders candidate 1 from the list, [selectedCandidate] still holds
    candidate 2, and a click on the suggested tag Shortlisted leaves that
    slice with the tag twice. *)
Theorem suggested_tag_duplicates_stale_slice :
  let x := mkCandidate 1 "Anna" None None in
  let y := mkCandidate 2 "Ben" None (Some ["Shortlisted"]) in
  let s0 := mkRecruit [x; y] ∅ None None None false 2 None in
  let s1 := fst (openCandidateProfile 2 (Json y) s0) in
  let s2 := fst (openCandidateProfile 1 NetworkError s1) in
  let s3 := fst (profileAddSuggested (L := asciiLowercase) x "Shortlisted" (Json tt) s2) in
  profileCandidate s2 = Some x
  /\ existsb (String.eqb "Shortlisted") (suggestedShown (L := asciiLowercase) x) = true
  /\ selectedCandidate s2 = Some y
  /\ option_map tagsOf (selectedCandidate s3) = Some ["Shortlisted"; "Shortlisted"]
  /\ option_map (fun c => noDupCI (L := asciiLowercase) (tagsOf c)) (selectedCandidate s3)
       = Some false
  /\ tagsClean (L := asciiLowercase) (candidates s3).
Proof.
  vm_compute. repeat split. repeat constructor.
Qed.

(** ** Debounced search *)

Lemma debRun_app (es1 es2 : list debEvent) (s : debouncer) :
  debRun (es1 ++ es2) s =
    (fst (debRun es2 (fst (debRun es1 s))),
     snd (debRun es1 s) ++ snd (debRun es2 (fst (debRun es1 s)))).
Proof.
  revert s. induction es1 as [|e es1 IH]; intros s; simpl.
  - destruct (debRun es2 s); reflexivity.
  - destruct (debStep e s) as [s1 out1]. rewrite IH.
    destruct (debRun es1 s1) as [s2 out2]. simpl.
    rewrite app_assoc. reflexivity.
Qed.

Lemma last_cons_default (a d : string) (l : list string) :
  List.last (a :: l) d = List.last l a.
Proof.
  revert a d. induction l as [|b l IH]; intros a d; [reflexivity|].
  change (List.last (a :: b :: l) d) with (List.last (b :: l) d).
  rewrite (IH b d), (IH b a). reflexivity.
Qed.

(** After a burst nothing has fired, the raw value is the last one typed
    and a single timer is pending, armed for it, a full delay ahead. *)
Lemma burst_state (rest : list (nat * string)) :
  forall (s : debouncer) (v1 : string),
    mounted s = true ->
    changing (value s) (v1 :: map snd rest) ->
    Forall (fun gv => (fst gv < delay)%nat) rest ->
    exists t,
      debRun (burst v1 rest) s =
        (mkDebouncer t (finalValue v1 rest) (debounced s)
                     (Some ((t + delay)%nat, finalValue v1 rest)) true, []).
Proof.
  induction rest as [|[g v2] rest IH]; intros s v1 Hm [Hne Hch] Hgaps.
  - exists (now s). unfold burst. simpl. unfold debStep. rewrite Hm. simpl.
    apply String.eqb_neq in Hne. rewrite Hne. reflexivity.
  - inversion Hgaps as [|gv l Hg Hgaps']; subst. simpl in Hg.
    pose (s2 := mkDebouncer (now s + g)%nat v1 (debounced s)
                            (Some ((now s + delay)%nat, v1)) true).
    destruct (IH s2 v2 eq_refl Hch Hgaps') as [t Ht].
    exists t.
    change (burst v1 ((g, v2) :: rest)) with (Change v1 :: Elapse g :: burst v2 rest).
    unfold finalValue in *. simpl map. rewrite last_cons_default.
    cbn [debRun]. unfold debStep at 1. rewrite Hm. simpl negb. cbv iota.
    apply String.eqb_neq in Hne. rewrite Hne.
    unfold debStep at 1. cbn [mounted negb timer now value debounced].
    assert (Hlt : ((now s + delay)%nat <=? (now s + g)%nat)%nat = false)
      by (apply Nat.leb_gt; lia).
    rewrite Hlt. fold s2. rewrite Ht. reflexivity.
Qed.

Lemma timerCurrent_step (e : debEvent) (s : debouncer) :
  timerCurrent s ->
  timerCurrent (fst (debStep e s))
  /\ Forall (fun v => v = value (fst (debStep e s))) (snd (debStep e s)).
Proof.
  unfold timerCurrent, debStep. intros Hs.
  destruct (mounted s); simpl; [|auto].
  destruct e as [v|ms|]; simpl.
  - destruct (String.eqb v (value s)); simpl; auto.
  - destruct (timer s) as [[deadline v]|]; simpl; [|auto].
    destruct (deadline <=? now s + ms)%nat; simpl; [|auto].
    split; [exact I|]. destruct (String.eqb v (debounced s)); auto.
  - auto.
Qed.

(** No effect ever runs with a value other than the raw value held at
    that moment: the timer of a superseded value is gone. *)
Lemma debounce_never_fires_superseded (es : list debEvent) (e : debEvent) (s : debouncer) :
  timerCurrent s ->
  let before := fst (debRun es s) in
  Forall (fun v => v = value (fst (debStep e before))) (snd (debStep e before)).
Proof.
  intros Hs before.
  assert (Hb : timerCurrent before).
  { subst before. revert s Hs. induction es as [|e' es IH]; intros s Hs; simpl; [exact Hs|].
    destruct (debStep e' s) as [s1 out1] eqn:E1.
    specialize (IH s1). destruct (debRun es s1) as [s2 out2] eqn:E2. simpl in *.
    apply IH. pose proof (timerCurrent_step e' s Hs) as H. rewrite E1 in H. apply H. }
  apply (timerCurrent_step e before Hb).
Qed.

(** The claim as written promises one fetch after every burst.  Typing a
    letter and deleting it again within the window brings the value back
    to the debounced one, and no fetch is issued at all. *)
Lemma debounce_burst_without_fetch :
  let s := mount 0 "" in
  let out := snd (debRun (burst "a" [(100%nat, "")] ++ [Elapse 300]) s) in
  out = []
  /\ flat_map (emailSearchEffect true None (mkInboxFilters "" "" "")) out = [].
Proof. split; reflexivity. Qed.

(** C2 (amended): for a burst of changes of a debounced input, each
    replacing the value less than 300ms after the previous change, no
    dependent effect runs during the burst; once 300ms have passed the
    effect has run at most once: exactly once, with the final value, when
    that value differs from the debounced value held before the burst,
    and not at all when it equals it; the fetch is the email listing for
    that value when the session is authenticated and none otherwise; and
    if the component unmounts after the burst nothing fires later. *)
Theorem debounce_burst (s : debouncer) (v1 : string) (rest : list (nat * string)) (d : nat)
    (authenticated : bool) (activeFolder : option string) (filters : inboxFilters) :
  mounted s = true ->
  changing (value s) (v1 :: map snd rest) ->
  Forall (fun gv => (fst gv < delay)%nat) rest ->
  (delay <= d)%nat ->
  let final := finalValue v1 rest in
  let out := snd (debRun (burst v1 rest ++ [Elapse d]) s) in
  snd (debRun (burst v1 rest) s) = []
  /\ out = (if String.eqb final (debounced s) then [] else [final])
  /\ flat_map (emailSearchEffect authenticated activeFolder filters) out
       = (if authenticated && negb (String.eqb final (debounced s))
          then [emailsRequest (liveParams activeFolder 0 final filters)]
          else [])
  /\ debounced (fst (debRun (burst v1 rest ++ [Elapse d]) s)) = final
  /\ snd (debRun (burst v1 rest ++ [Unmount; Elapse d]) s) = [].
Proof.
  intros Hm Hch Hgaps Hd final out.
  destruct (burst_state rest s v1 Hm Hch Hgaps) as [t Ht]. fold final in Ht.
  assert (Hfire : ((t + delay)%nat <=? (t + d)%nat)%nat = true) by (apply Nat.leb_le; lia).
  assert (Hout : out = (if String.eqb final (debounced s) then [] else [final])).
  { subst out. rewrite debRun_app, Ht. simpl. unfold debStep. simpl. rewrite Hfire. simpl.
    destruct (String.eqb final (debounced s)); reflexivity. }
  repeat match goal with |- _ /\ _ => split end.
  - rewrite Ht. reflexivity.
  - exact Hout.
  - rewrite Hout. unfold emailSearchEffect.
    destruct (String.eqb final (debounced s)), authenticated; reflexivity.
  - rewrite debRun_app, Ht. simpl. unfold debStep. simpl. rewrite Hfire. reflexivity.
  - rewrite debRun_app, Ht. reflexivity.
Qed.

Lemma debounce_burst_witness :
  let s := mount 0 "" in
  snd (debRun (burst "anna" [(100%nat, "annab")] ++ [Elapse 300]) s) = ["annab"]
  /\ flat_map (emailSearchEffect true None (mkInboxFilters "" "" ""))
       (snd (debRun (burst "anna" [(100%nat, "annab")] ++ [Elapse 300]) s))
     = [emailsRequest [("skip", "0"); ("top", "25"); ("search", "annab")]].
Proof.
  assert (Hch : changing (value (mount 0 "")) ("anna" :: map snd [(100%nat, "annab")])).
  { simpl. repeat split; discriminate. }
  assert (Hgaps : Forall (fun gv : nat * string => (fst gv < delay)%nat) [(100%nat, "annab")]).
  { repeat constructor. }
  assert (Hd : (delay <= 300)%nat) by (unfold delay; lia).
  destruct (debounce_burst (mount 0 "") "anna" [(100%nat, "annab")] 300 true None
              (mkInboxFilters "" "" "") eq_refl Hch Hgaps Hd) as (_ & Hout & Hreq & _).
  split; [exact Hout | exact Hreq].
Defined.

(** The scenario of the specification on the candidate search. *)
Example candidate_search_anna_annab :
  flat_map (candSearchEffect true "candidates" "")
    (snd (debRun (burst "anna" [(100%nat, "annab")] ++ [Elapse 300]) (mount 0 "")))
  = [candidatesRequest "annab" ""].
Proof. reflexivity. Qed.

(** * Further properties of the component *)

(** ** Relative time labels *)

Lemma relativeAge_units (diff : Z) :
  diff / 60000 / 60 = diff / 3600000
  /\ diff / 60000 / 60 / 24 = diff / 86400000
  /\ diff / 60000 / 60 / 24 / 7 = diff / 604800000.
Proof.
  repeat rewrite Z.div_div by lia. simpl. auto.
Qed.

(** X2: for a time in the past, the label [formatRelativeTime] shows
    never overstates the age and understates it by less than one unit:
    the age lies in the span the label stands for; minutes shown are 1 to
    59, hours 1 to 23, days 1 to 6 and weeks at least 1. *)
Theorem relative_age_sound (diff : Z) :
  0 <= diff ->
  fst (ageSpan (relativeAge diff)) <= diff < snd (ageSpan (relativeAge diff))
  /\ match relativeAge diff with
     | JustNow => diff < 60000
     | Minutes n => 1 <= n <= 59
     | Hours n => 1 <= n <= 23
     | Days n => 1 <= n <= 6
     | Weeks n => 1 <= n
     end.
Proof.
  intros Hd. unfold relativeAge.
  destruct (relativeAge_units diff) as (Hh & Hdd & Hw).
  destruct (Z.ltb_spec (diff / 60000) 1) as [H1|H1].
  { simpl. pose proof (Z.mul_succ_div_gt diff 60000 ltac:(lia)). lia. }
  destruct (Z.ltb_spec (diff / 60000) 60) as [H2|H2].
  { simpl. pose proof (Z.mul_div_le diff 60000 ltac:(lia)).
    pose proof (Z.mul_succ_div_gt diff 60000 ltac:(lia)). lia. }
  rewrite Hh.
  assert (H3 : 1 <= diff / 3600000) by (rewrite <- Hh; apply Z.div_le_lower_bound; lia).
  destruct (Z.ltb_spec (diff / 3600000) 24) as [H4|H4].
  { simpl. pose proof (Z.mul_div_le diff 3600000 ltac:(lia)).
    pose proof (Z.mul_succ_div_gt diff 3600000 ltac:(lia)). lia. }
  assert (Hd' : diff / 3600000 / 24 = diff / 86400000) by (rewrite <- Hh; exact Hdd).
  rewrite Hd'.
  assert (H5 : 1 <= diff / 86400000) by (rewrite <- Hd'; apply Z.div_le_lower_bound; lia).
  destruct (Z.ltb_spec (diff / 86400000) 7) as [H6|H6].
  { simpl. pose proof (Z.mul_div_le diff 86400000 ltac:(lia)).
    pose proof (Z.mul_succ_div_gt diff 86400000 ltac:(lia)). lia. }
  assert (Hw' : diff / 86400000 / 7 = diff / 604800000) by (rewrite <- Hd', <- Hh; exact Hw).
  rewrite Hw'.
  assert (H7 : 1 <= diff / 604800000) by (rewrite <- Hw'; apply Z.div_le_lower_bound; lia).
  simpl. pose proof (Z.mul_div_le diff 604800000 ltac:(lia)).
  pose proof (Z.mul_succ_div_gt diff 604800000 ltac:(lia)). lia.
Qed.

Lemma relative_age_sound_witness :
  relativeAge 7500000 = Hours 2
  /\ fst (ageSpan (relativeAge 7500000)) <= 7500000 < snd (ageSpan (relativeAge 7500000)).
Proof.
  assert (H0 : 0 <= 7500000) by lia.
  destruct (relative_age_sound 7500000 H0) as [Hspan _].
  split; [reflexivity | exact Hspan].
Defined.

(** X3: below one week the "Last run" label of the scheduler card and
    [formatRelativeTime] show the same quantity and unit; from one week
    on the former keeps counting days where the latter shows weeks. *)
Theorem last_run_agrees_below_a_week (diff : Z) :
  diff < 604800000 ->
  lastRunAge diff = relativeAge diff.
Proof.
  intros Hd. unfold lastRunAge, relativeAge.
  destruct (diff / 60000 <? 1); [reflexivity|].
  destruct (diff / 60000 <? 60); [reflexivity|].
  destruct (diff / 60000 / 60 <? 24); [reflexivity|].
  destruct (relativeAge_units diff) as (_ & Hdd & _). rewrite Hdd.
  assert (H : diff / 86400000 < 7) by (apply Z.div_lt_upper_bound; lia).
  destruct (Z.ltb_spec (diff / 86400000) 7); [reflexivity | lia].
Qed.

Lemma last_run_agrees_below_a_week_witness :
  lastRunAge 90000000 = Days 1 /\ relativeAge 90000000 = Days 1.
Proof.
  assert (H0 : 90000000 < 604800000) by lia.
  pose proof (last_run_agrees_below_a_week 90000000 H0) as H.
  split; [reflexivity | rewrite <- H; reflexivity].
Defined.

(** ** Scrape form and requests *)

(** X4: the body [runScrape] and [exportData] post holds no empty string
    and no null; every filter of the form that is filled in is sent with
    its value; max_results and include_attachments are always sent; and
    an export posts the body a scrape of the same form posts. *)
Theorem scrape_body_absent_when_empty (c : scrapeConfig) (format : string) :
  Forall (fun kv => emptyOrNull (snd kv) = false) (scrapeBody c)
  /\ (forall k v, In (k, JStr v) (scrapeFields c) -> v <> "" -> In (k, JStr v) (scrapeBody c))
  /\ (forall k v, In (k, v) (scrapeBody c) -> In (k, v) (scrapeFields c))
  /\ In ("max_results", JNum (sc_max_results c)) (scrapeBody c)
  /\ In ("include_attachments", JBool (sc_include_attachments c)) (scrapeBody c)
  /\ req_body (exportRequest format c) = req_body (scrapeRequest c)
  /\ (forall v, In ("folder_id", v) (scrapeBody c)
                <-> v = JStr (sc_folder_id c) /\ sc_folder_id c <> "")
  /\ (forall v, In ("from_date", v) (scrapeBody c)
                <-> v = JStr (sc_from_date c) /\ sc_from_date c <> "")
  /\ (forall v, In ("to_date", v) (scrapeBody c)
                <-> v = JStr (sc_to_date c) /\ sc_to_date c <> "")
  /\ (forall v, In ("sender_filter", v) (scrapeBody c)
                <-> v = JStr (sc_sender_filter c) /\ sc_sender_filter c <> "")
  /\ (forall v, In ("subject_filter", v) (scrapeBody c)
                <-> v = JStr (sc_subject_filter c) /\ sc_subject_filter c <> "")
  /\ (forall v, In ("search", v) (scrapeBody c)
                <-> v = JStr (sc_search c) /\ sc_search c <> "").
Proof.
  unfold scrapeBody.
  repeat match goal with |- _ /\ _ => split end.
  7-12: (intros v; rewrite List.filter_In; split;
         [ intros [Hin Hp]; simpl in Hin;
           repeat (destruct Hin as [Hin|Hin]; [try discriminate Hin|]);
           try contradiction;
           inversion Hin; subst v; split; [reflexivity|];
           simpl in Hp; apply negb_true_iff in Hp; apply String.eqb_neq in Hp; exact Hp
         | intros [-> Hne]; split; [simpl; tauto|];
           simpl; apply negb_true_iff; apply String.eqb_neq; exact Hne ]).
  - apply List.Forall_forall. intros kv Hin. apply List.filter_In in Hin.
    destruct Hin as [_ H]. apply negb_true_iff in H. exact H.
  - intros k v Hin Hv. apply List.filter_In. split; [exact Hin|].
    simpl. apply negb_true_iff. apply String.eqb_neq. exact Hv.
  - intros k v Hin. apply List.filter_In in Hin. tauto.
  - apply List.filter_In. split; [|reflexivity]. simpl. tauto.
  - apply List.filter_In. split; [|reflexivity]. simpl. tauto.
  - reflexivity.
Qed.

Lemma clampMaxResults_range (parsed : option Z) :
  1 <= clampMaxResults parsed <= 500.
Proof. unfold clampMaxResults. lia. Qed.

(** X5: whatever is typed into the form, in any order, max_results stays
    between 1 and 500, so every scrape or export request asks for between
    1 and 500 results. *)
Theorem scrape_max_results_bounded (es : list scrapeEdit) (c : scrapeConfig) :
  1 <= sc_max_results c <= 500 ->
  let c' := fold_left (fun acc e => editScrapeConfig e acc) es c in
  1 <= sc_max_results c' <= 500
  /\ In ("max_results", JNum (sc_max_results c')) (req_body (scrapeRequest c')).
Proof.
  intros Hc. simpl.
  assert (H : 1 <= sc_max_results (fold_left (fun acc e => editScrapeConfig e acc) es c) <= 500).
  { revert c Hc. induction es as [|e es IH]; intros c Hc; simpl; [exact Hc|].
    apply IH. destruct e; simpl; try exact Hc; try lia.
    apply clampMaxResults_range. }
  split; [exact H|].
  unfold scrapeBody. apply List.filter_In. split; [|reflexivity]. simpl. tauto.
Qed.

Lemma scrape_max_results_bounded_witness :
  let c' := fold_left (fun acc e => editScrapeConfig e acc)
              [SetMaxResults (Some 9000); SetSearch "resume"; SetMaxResults None;
               SetMaxResults (Some (-3))] initialScrapeConfig in
  sc_max_results c' = 1 /\ 1 <= sc_max_results c' <= 500.
Proof.
  assert (H0 : 1 <= sc_max_results initialScrapeConfig <= 500) by (simpl; lia).
  destruct (scrape_max_results_bounded
              [SetMaxResults (Some 9000); SetSearch "resume"; SetMaxResults None;
               SetMaxResults (Some (-3))] initialScrapeConfig H0) as [Hr _].
  split; [reflexivity | exact Hr].
Defined.

(** X6: expanding and collapsing a scrape card are inverse to each other
    and touch no other card; a new scrape collapses every card and
    replaces the previous result, by the new data or, on failure, by
    nothing. *)
Theorem scrape_cards_toggle (i j : nat) (c : scrapeConfig) (r : fetched scrapeData)
    (v : scrapeView) :
  expandedScrapeCards (toggleScrapeCard i (toggleScrapeCard i v)) = expandedScrapeCards v
  /\ (i ∈ expandedScrapeCards (toggleScrapeCard i v) <-> i ∉ expandedScrapeCards v)
  /\ (j <> i -> (j ∈ expandedScrapeCards (toggleScrapeCard i v) <-> j ∈ expandedScrapeCards v))
  /\ expandedScrapeCards (fst (runScrape c r v)) = ∅
  /\ scrapeResult (fst (runScrape c r v)) = match r with Json d => Some d | _ => None end.
Proof.
  unfold toggleScrapeCard. simpl.
  repeat match goal with |- _ /\ _ => split end.
  - destruct (decide (i ∈ expandedScrapeCards v)) as [Hin|Hin].
    + destruct (decide (i ∈ expandedScrapeCards v ∖ {[i]})) as [Hd|_].
      * apply elem_of_difference in Hd. destruct Hd as [_ Hd].
        exfalso. apply Hd. apply elem_of_singleton. reflexivity.
      * apply set_eq. intros x.
        rewrite elem_of_union, elem_of_difference, elem_of_singleton.
        destruct (decide (x = i)) as [->|Hx]; tauto.
    + destruct (decide (i ∈ expandedScrapeCards v ∪ {[i]})) as [_|Hn].
      * apply set_eq. intros x.
        rewrite elem_of_difference, elem_of_union, elem_of_singleton.
        destruct (decide (x = i)) as [->|Hx]; tauto.
      * exfalso. apply Hn. apply elem_of_union. right. apply elem_of_singleton. reflexivity.
  - destruct (decide (i ∈ expandedScrapeCards v)) as [Hin|Hin].
    + rewrite elem_of_difference, elem_of_singleton. tauto.
    + rewrite elem_of_union, elem_of_singleton. tauto.
  - intros Hne. destruct (decide (i ∈ expandedScrapeCards v)) as [Hin|Hin].
    + rewrite elem_of_difference, elem_of_singleton. tauto.
    + rewrite elem_of_union, elem_of_singleton. tauto.
  - unfold runScrape. destruct r; reflexivity.
  - unfold runScrape. destruct r; reflexivity.
Qed.

(** ** Session gate *)

(** X7: [checkAuth] always leaves the loading state.  The session ends
    authenticated exactly when the status check reports an authenticated
    IMAP session or, failing that, the Microsoft check reports a
    connected account with an email; the Microsoft check is consulted
    only after a status check that succeeded unauthenticated; folders and
    emails are requested exactly when the session ends authenticated;
    and the connection error is shown when the status check fails or the
    Microsoft answer cannot be read. *)
Theorem session_gate (st : fetched authStatus) (ms : fetched msStatus) (s : session) :
  let r := checkAuth st ms s in
  let imap := match st with Json d => as_authenticated d | _ => false end in
  let asked := match st with Json d => negb (as_authenticated d) | _ => false end in
  let oauth := match ms with
               | Json m => ms_connected m && bool_decide (is_Some (ms_email m))
               | _ => false
               end in
  let unreadable := match ms with
                    | BadJson => true
                    | Json m => ms_connected m && negb (bool_decide (is_Some (ms_email m)))
                    | _ => false
                    end in
  auth_loading (fst r) = false
  /\ auth_authenticated (fst r) = imap || (asked && oauth)
  /\ snd r = authStatusRequest
             :: (if asked then [msStatusRequest] else [])
             ++ (if imap || (asked && oauth) then initialLoads else [])
  /\ sessionError (fst r) =
       (if negb (succeeded st) || (asked && unreadable)
        then Some "Cannot connect to backend server"
        else sessionError s)
  /\ (if imap then authMethodOf (fst r) = Imap
      else if asked && oauth then authMethodOf (fst r) = Oauth2
      else True)
  /\ (authStatusRequest = mkRequest GET "/auth/status" [] []
      /\ msStatusRequest = mkRequest GET "/auth/microsoft/status" [] []
      /\ initialLoads = [ mkRequest GET "/api/folders" [] [];
                          mkRequest GET "/api/emails" [("skip", "0"); ("top", "25")] [] ]).
Proof.
  assert (Hreqs : authStatusRequest = mkRequest GET "/auth/status" [] []
      /\ msStatusRequest = mkRequest GET "/auth/microsoft/status" [] []
      /\ initialLoads = [ mkRequest GET "/api/folders" [] [];
                          mkRequest GET "/api/emails" [("skip", "0"); ("top", "25")] [] ])
    by (repeat split).
  destruct Hreqs as (Hr1 & Hr2 & Hr3).
  unfold checkAuth, checkMicrosoft.
  destruct st as [| | |d]; simpl;
    [ repeat match goal with |- _ /\ _ => split end; auto ..|].
  destruct (as_authenticated d); simpl;
    [ repeat match goal with |- _ /\ _ => split end; auto |].
  destruct ms as [| | |m]; simpl;
    [ repeat match goal with |- _ /\ _ => split end; auto ..|].
  destruct (ms_connected m); simpl;
    [| repeat match goal with |- _ /\ _ => split end; auto ].
  destruct (ms_email m) as [email|]; simpl;
    repeat match goal with |- _ /\ _ => split end; auto.
Qed.



(** X9: [logout] posts to the logout endpoint of the method in use.  As
    soon as the request resolves, whatever its status, the client is
    anonymous: session reset to password login, emails, folders, stats
    and the selected email cleared, so the cache banner is off; the
    cached flag and the pagination keep their values.  When the request
    cannot be sent the call throws and nothing is reset. *)
Theorem logout_resets_on_any_response (r : fetched unit) (sh : shell) :
  snd (logout r sh) = [logoutRequest (authMethodOf (sessionOf sh))]
  /\ match fst (logout r sh) with
     | Return sh' =>
         resolved r = true
         /\ auth_authenticated (sessionOf sh') = false
         /\ auth_user (sessionOf sh') = None
         /\ authMethodOf (sessionOf sh') = Imap
         /\ emails (inboxOf sh') = []
         /\ folders (resourcesOf sh') = []
         /\ stats (resourcesOf sh') = None
         /\ selectedEmail sh' = None
         /\ cacheBanner (inboxOf sh') = false
         /\ emailsFromCache (inboxOf sh') = emailsFromCache (inboxOf sh)
         /\ paginationOf (inboxOf sh') = paginationOf (inboxOf sh)
     | Throw _ => r = NetworkError
     end
  /\ snd (logout r sh)
     = [mkRequest POST (match authMethodOf (sessionOf sh) with
                        | Oauth2 => "/auth/microsoft/logout"
                        | Imap => "/auth/logout"
                        end) [] []].
Proof.
  unfold logout. split; [reflexivity|]. split.
  - destruct r; simpl; auto;
      unfold cacheBanner; simpl; rewrite andb_false_r; repeat split.
  - simpl. destruct (authMethodOf (sessionOf sh)); reflexivity.
Qed.

(** ** Pre-load and listings *)

Lemma loadEmails_banner (seen : bool) (folderId : option string) (k : Z) (search : string)
    (filters : inboxFilters) (live cache : fetched listing) (ib : inbox) :
  cacheBanner ib = emailsFromCache ib ->
  cacheBanner (fst (loadEmails seen folderId k search filters live cache ib))
    = emailsFromCache (fst (loadEmails seen folderId k search filters live cache ib)).
Proof.
  intros Hib. unfold loadEmails, cacheFallback.
  destruct live; simpl; try reflexivity;
    (destruct seen; simpl;
     [ exact Hib
     | destruct cache as [| | |c]; simpl; try exact Hib;
       unfold has_emails; destruct (l_emails c) as [[|e es]|]; simpl;
       try exact Hib; reflexivity ]).
Qed.

Lemma preload_banner (em : fetched listing) (ib : inbox) :
  cacheBanner ib = emailsFromCache ib ->
  cacheBanner (inboxEventStep (Preloaded em) ib)
    = emailsFromCache (inboxEventStep (Preloaded em) ib).
Proof.
  intros Hib. unfold inboxEventStep, preload.
  destruct em as [| | |d]; simpl; try exact Hib.
  unfold has_emails. destruct (l_emails d) as [[|e es]|]; simpl; try exact Hib.
  reflexivity.
Qed.

(** X10: through the pre-load and any number of listings the cached flag
    is raised only while the list shown is non-empty, so the banner is
    shown exactly while the flag is raised. *)
Theorem cached_flag_means_banner (es : list inboxEvent) (ib : inbox) :
  cacheBanner ib = emailsFromCache ib ->
  let ib' := fold_left (fun acc e => inboxEventStep e acc) es ib in
  cacheBanner ib' = emailsFromCache ib'
  /\ (emailsFromCache ib' = true -> emails ib' <> []).
Proof.
  intros Hib. simpl.
  assert (H : cacheBanner (fold_left (fun acc e => inboxEventStep e acc) es ib)
              = emailsFromCache (fold_left (fun acc e => inboxEventStep e acc) es ib)).
  { revert ib Hib. induction es as [|e es IH]; intros ib Hib; simpl; [exact Hib|].
    apply IH. destruct e as [em | seen folderId k search filters live cache].
    - apply preload_banner. exact Hib.
    - apply loadEmails_banner. exact Hib. }
  split; [exact H|].
  intros Hflag Hnil. unfold cacheBanner in H. rewrite Hflag, Hnil in H. discriminate H.
Qed.

Lemma cached_flag_means_banner_witness :
  let e := mkEmail "m1" "Application" false in
  let ib' := fold_left (fun acc ev => inboxEventStep ev acc)
               [Preloaded (Json (mkListing (Some [e]) (Some 1)));
                Listed false None 0 "" (mkInboxFilters "" "" "") NetworkError NetworkError]
               initialInbox in
  emailsFromCache ib' = true /\ cacheBanner ib' = true.
Proof.
  destruct (cached_flag_means_banner
              [Preloaded (Json (mkListing (Some [mkEmail "m1" "Application" false]) (Some 1)));
               Listed false None 0 "" (mkInboxFilters "" "" "") NetworkError NetworkError]
              initialInbox eq_refl) as [Hb _].
  split; [reflexivity | rewrite Hb; reflexivity].
Defined.

(** X11: when the pre-load has adopted a non-empty cached listing, a
    listing whose live request fails never leaves the list empty or the
    banner off.  A handler that sees the cached flag set sends no cache
    request and keeps what the pre-load showed; a handler that does not,
    as the listing [checkAuth] starts at mount, sends the cache request
    and replaces the pre-loaded list exactly when that request returns at
    least one email. *)
Theorem preload_then_offline (cand : fetched (list candidate)) (e : email) (es : list email)
    (tot : option Z) (rc : recruit) (ib : inbox) (db : Z)
    (seen : bool) (folderId : option string) (k : Z) (search : string) (filters : inboxFilters)
    (live cache : fetched listing) :
  cand <> BadJson ->
  succeeded live = false ->
  let ib1 := snd (fst (fst (preload cand (Json (mkListing (Some (e :: es)) tot)) rc ib db))) in
  let r := loadEmails seen folderId k search filters live cache ib1 in
  let reported := fun t : option Z =>
    match t with Some n => if n =? 0 then 0 else n | None => 0 end in
  emails ib1 = e :: es
  /\ cacheBanner ib1 = true
  /\ snd r = emailsRequest (liveParams folderId k search filters)
             :: (if seen then [] else [emailsRequest (cacheParams folderId k search filters)])
  /\ emails (fst r) =
       (if seen then e :: es
        else match cache with
             | Json c => match l_emails c with Some (e' :: es') => e' :: es' | _ => e :: es end
             | _ => e :: es
             end)
  /\ paginationOf (fst r) =
       (if seen then mkPagination 0 25 (reported tot)
        else match cache with
             | Json c => match l_emails c with
                         | Some (_ :: _) => mkPagination k 25 (reported (l_total c))
                         | _ => mkPagination 0 25 (reported tot)
                         end
             | _ => mkPagination 0 25 (reported tot)
             end)
  /\ emails (fst r) <> []
  /\ cacheBanner (fst r) = true.
Proof.
  intros Hcand Hlive ib1 r reported.
  assert (E : ib1 = setListing (e :: es) 0 (reported tot) true ib).
  { subst ib1. unfold preload. destruct cand; try contradiction; reflexivity. }
  subst r. rewrite E. unfold loadEmails, cacheFallback, cacheBanner.
  destruct live; try discriminate; simpl;
    (destruct seen; simpl;
     [ repeat split; discriminate
     | destruct cache as [| | |c]; simpl;
       [ repeat split; discriminate ..
       | unfold has_emails; destruct (l_emails c) as [[|e' es']|]; simpl;
         repeat split; discriminate ] ]).
Qed.

Lemma preload_then_offline_witness :
  let m1 := mkEmail "m1" "Application" false in
  let m2 := mkEmail "m2" "Resume attached" false in
  let ib1 := snd (fst (fst (preload NetworkError (Json (mkListing (Some [m1]) (Some 3)))
                             (mkRecruit [] ∅ None None None false 0 None) initialInbox 0))) in
  let r := loadEmails false None 0 "" (mkInboxFilters "" "" "") (HttpError 503)
             (Json (mkListing (Some [m2]) (Some 1))) ib1 in
  length (snd r) = 2%nat /\ emails (fst r) = [m2].
Proof.
  assert (Hc : @NetworkError (list candidate) <> BadJson) by discriminate.
  destruct (preload_then_offline NetworkError (mkEmail "m1" "Application" false) [] (Some 3)
              (mkRecruit [] ∅ None None None false 0 None) initialInbox 0
              false None 0 "" (mkInboxFilters "" "" "") (HttpError 503)
              (Json (mkListing (Some [mkEmail "m2" "Resume attached" false]) (Some 1)))
              Hc eq_refl) as (_ & _ & Hreq & Hem & _).
  split; [rewrite Hreq; reflexivity | exact Hem].
Defined.

(** X12: the explicit search does not cancel the pending debounce timer:
    after a change of the search text, a submit inside the window sends
    the listing request for the new text at once, and the same request is
    sent again when the window has elapsed. *)
Theorem submit_does_not_cancel_debounce (s : debouncer) (v : string)
    (activeFolder : option string) (filters : inboxFilters) :
  mounted s = true ->
  v <> value s ->
  v <> debounced s ->
  let s1 := fst (debStep (Change v) s) in
  let req := emailsRequest (liveParams activeFolder 0 v filters) in
  handleSearch activeFolder filters s1 = [req]
  /\ flat_map (emailSearchEffect true activeFolder filters) (snd (debStep (Elapse delay) s1))
     = [req].
Proof.
  intros Hm Hv Hd s1 req.
  apply String.eqb_neq in Hv. apply String.eqb_neq in Hd.
  assert (E : s1 = mkDebouncer (now s) v (debounced s) (Some ((now s + delay)%nat, v)) true).
  { subst s1. unfold debStep. rewrite Hm. cbn [negb]. rewrite Hv. reflexivity. }
  rewrite E. split; [reflexivity|].
  unfold debStep. cbn [mounted negb timer now debounced value].
  assert (Hle : ((now s + delay)%nat <=? (now s + delay)%nat)%nat = true)
    by (apply Nat.leb_le; lia).
  rewrite Hle. cbn [snd]. rewrite Hd. reflexivity.
Qed.

Lemma submit_does_not_cancel_debounce_witness :
  handleSearch None (mkInboxFilters "" "" "") (fst (debStep (Change "anna") (mount 0 "")))
    = [emailsRequest (liveParams None 0 "anna" (mkInboxFilters "" "" ""))]
  /\ flat_map (emailSearchEffect true None (mkInboxFilters "" "" ""))
       (snd (debStep (Elapse delay) (fst (debStep (Change "anna") (mount 0 "")))))
     = [emailsRequest (liveParams None 0 "anna" (mkInboxFilters "" "" ""))].
Proof.
  assert (H1 : "anna" <> value (mount 0 "")) by discriminate.
  assert (H2 : "anna" <> debounced (mount 0 "")) by discriminate.
  exact (submit_does_not_cancel_debounce (mount 0 "") "anna" None (mkInboxFilters "" "" "")
           eq_refl H1 H2).
Defined.

(** ** Candidates view *)

Lemma existsb_eqb_In (x : string) (l : list string) :
  existsb (String.eqb x) l = true <-> In x l.
Proof.
  rewrite List.existsb_exists. split.
  - intros [y [Hin Heq]]. apply String.eqb_eq in Heq. subst. exact Hin.
  - intros Hin. exists x. split; [exact Hin | apply String.eqb_refl].
Qed.

Lemma uniq_fold (l acc : list string) :
  List.NoDup acc ->
  let r := fold_left (fun acc x => if existsb (String.eqb x) acc then acc else acc ++ [x]) l acc in
  List.NoDup r /\ forall x, In x r <-> In x acc \/ In x l.
Proof.
  revert acc. induction l as [|y l IH]; intros acc Hacc; simpl.
  - split; [exact Hacc|]. intros x. tauto.
  - destruct (existsb (String.eqb y) acc) eqn:E.
    + destruct (IH acc Hacc) as [Hnd Hin]. split; [exact Hnd|].
      intros x. rewrite Hin. apply existsb_eqb_In in E.
      split; [tauto|]. intros [H|[H|H]]; subst; auto.
    + assert (Hy : ~ In y acc).
      { intros H. apply existsb_eqb_In in H. congruence. }
      assert (Hacc' : List.NoDup (acc ++ [y])).
      { apply List.NoDup_app; [exact Hacc | repeat constructor; intros [] |].
        intros x Hx [Hxy|[]]. subst. contradiction. }
      destruct (IH (acc ++ [y]) Hacc') as [Hnd Hin]. split; [exact Hnd|].
      intros x. rewrite Hin, List.in_app_iff. simpl. tauto.
Qed.

Lemma uniq_fold_prefix (l acc : list string) :
  exists rest,
    fold_left (fun acc x => if existsb (String.eqb x) acc then acc else acc ++ [x]) l acc
    = acc ++ rest.
Proof.
  revert acc. induction l as [|y l IH]; intros acc; simpl.
  - exists []. rewrite app_nil_r. reflexivity.
  - destruct (existsb (String.eqb y) acc).
    + apply IH.
    + destruct (IH (acc ++ [y])) as [rest Hrest]. exists ([y] ++ rest).
      rewrite Hrest, <- app_assoc. reflexivity.
Qed.

(** X13: the options of the tag filter are the five suggested tags, in
    their order, followed by the other tags carried by some candidate of
    the list; every option appears exactly once, and a tag is an option
    exactly when it is suggested or carried by a candidate. *)
Theorem tag_filter_options_exact (cs : list candidate) :
  List.NoDup (tagFilterOptions cs)
  /\ (forall t, In t (tagFilterOptions cs) <->
                In t ["Shortlisted"; "Rejected"; "On Hold"; "Interview Scheduled"; "Offer Sent"]
                \/ exists c, In c cs /\ In t (tagsOf c))
  /\ (exists rest,
        tagFilterOptions cs
        = ["Shortlisted"; "Rejected"; "On Hold"; "Interview Scheduled"; "Offer Sent"] ++ rest)
  /\ List.NoDup (allTags cs)
  /\ (forall t, In t (allTags cs) <-> exists c, In c cs /\ In t (tagsOf c)).
Proof.
  assert (Hall : List.NoDup (allTags cs)
                 /\ forall t, In t (allTags cs) <-> exists c, In c cs /\ In t (tagsOf c)).
  { unfold allTags, uniq.
    destruct (uniq_fold (flat_map tagsOf cs) [] (List.NoDup_nil _)) as [Hnd Hin].
    split; [exact Hnd|].
    intros t. rewrite Hin, List.in_flat_map. simpl. tauto. }
  destruct Hall as [Hnd Hin].
  unfold tagFilterOptions, uniq.
  destruct (uniq_fold (SUGGESTED_TAGS ++ allTags cs) [] (List.NoDup_nil _)) as [Hnd' Hin'].
  repeat match goal with |- _ /\ _ => split end; auto.
  - intros t. rewrite Hin', List.in_app_iff, Hin. simpl. tauto.
  - rewrite fold_left_app.
    change (fold_left (fun acc x => if existsb (String.eqb x) acc then acc else acc ++ [x])
                      SUGGESTED_TAGS [])
      with ["Shortlisted"; "Rejected"; "On Hold"; "Interview Scheduled"; "Offer Sent"].
    apply uniq_fold_prefix.
Qed.

Lemma loadCandidates_count (l : candLoad) (s : recruit) :
  dbCandidates (loadCandidates (cl_search l) (cl_tag l) (cl_response l) s)
    = default (dbCandidates s) (countsAll l).
Proof.
  unfold countsAll, loadCandidates, try_catch, fetch_json, mbind, outcome_bind.
  destruct (cl_response l); try reflexivity.
  destruct (negb (truthy (cl_search l)) && negb (truthy (cl_tag l))); reflexivity.
Qed.

(** X14: after any sequence of candidate loads the database count shown
    is the size of the payload of the last successful load made without
    search text and without tag, or the former count if there was none:
    filtered loads and failed loads replace or keep the list but never
    move the count. *)
Theorem db_count_tracks_unfiltered_loads (ls : list candLoad) (s : recruit) :
  dbCandidates (runCandLoads ls s) = lastCount ls (dbCandidates s)
  /\ (Forall (fun l => countsAll l = None) ls ->
      dbCandidates (runCandLoads ls s) = dbCandidates s).
Proof.
  assert (H : forall ls s, dbCandidates (runCandLoads ls s) = lastCount ls (dbCandidates s)).
  { clear ls s. unfold runCandLoads.
    induction ls as [|l ls IH]; intros s; simpl; [reflexivity|].
    rewrite IH, loadCandidates_count. reflexivity. }
  split; [apply H|].
  intros Hall. rewrite H. revert s. induction Hall as [|l ls Hl Hall IH]; intros s; simpl.
  - reflexivity.
  - rewrite Hl. simpl. apply IH.
Qed.

(** ** Query strings *)

(** X15: optional filters are serialised as absent when empty: in the
    query of a listing, of a candidate load and of an attachment load a
    filter key is present exactly when its filter is non-empty (and, for
    the attachment type, not "all"), and then carries the filter's
    value; skip and the page size of 25 are always sent. *)
Theorem filters_absent_when_empty (folderId : option string) (k : Z) (search tagF typeFilter : string)
    (filters : inboxFilters) :
  let q := liveParams folderId k search filters in
  let present := fun v : string => if truthy v then Some v else None in
  params_get "skip" q = Some (pretty k)
  /\ params_get "top" q = Some "25"
  /\ params_get "folder_id" q = match folderId with Some f => present f | None => None end
  /\ params_get "search" q = present search
  /\ params_get "from_date" q = present (from_date filters)
  /\ params_get "to_date" q = present (to_date filters)
  /\ params_get "sender" q = present (sender filters)
  /\ params_get "name" (candidatesParams search tagF) = present search
  /\ params_get "tag" (candidatesParams search tagF) = present tagF
  /\ params_get "file_type" (attachmentsParams typeFilter)
     = (if truthy typeFilter && negb (String.eqb typeFilter "all") then Some typeFilter else None).
Proof.
  simpl.
  repeat match goal with |- _ /\ _ => split end;
    try (params_simpl; repeat match goal with
                              | |- context [truthy ?v] => destruct (truthy v)
                              end; reflexivity).
  - unfold candidatesParams. rewrite !params_get_set_if. simpl.
    destruct (truthy search); reflexivity.
  - unfold candidatesParams. rewrite !params_get_set_if. simpl.
    destruct (truthy tagF); reflexivity.
  - unfold attachmentsParams.
    destruct (truthy typeFilter && negb (String.eqb typeFilter "all")); [|reflexivity].
    rewrite params_get_set. reflexivity.
Qed.

(** ** Desktop shell: waiting for the backend *)

Lemma check_spec (probes : nat -> probe) (n : nat) :
  forall i,
    (1 <= snd (check probes i n) <= n + 1)%nat
    /\ (forall j, (j < snd (check probes i n) - 1)%nat -> probes (i + j)%nat <> Responded 200)
    /\ match fst (check probes i n) with
       | Ready => probes (i + (snd (check probes i n) - 1))%nat = Responded 200
       | Failed msg =>
           snd (check probes i n) = (n + 1)%nat
           /\ probes (i + n)%nat <> Responded 200
           /\ msg = match probes (i + n)%nat with
                    | Responded _ => "Backend failed to start"
                    | ProbeError => "Backend not responding"
                    end
       end.
Proof.
  induction n as [|n IH]; intros i.
  - simpl. destruct (probes i) as [code|] eqn:E.
    + destruct (Z.eqb_spec code 200) as [->|Hne]; simpl.
      * repeat split; try lia. rewrite Nat.add_0_r. exact E.
      * rewrite Nat.add_0_r, E. repeat split; try lia. congruence.
    + simpl. rewrite Nat.add_0_r, E. repeat split; try lia. discriminate.
  - assert (Hstep : forall (Hne : probes i <> Responded 200),
              (1 <= S (snd (check probes (S i) n)) <= S n + 1)%nat
              /\ (forall j, (j < S (snd (check probes (S i) n)) - 1)%nat ->
                            probes (i + j)%nat <> Responded 200)
              /\ match fst (check probes (S i) n) with
                 | Ready => probes (i + (S (snd (check probes (S i) n)) - 1))%nat = Responded 200
                 | Failed msg =>
                     S (snd (check probes (S i) n)) = (S n + 1)%nat
                     /\ probes (i + S n)%nat <> Responded 200
                     /\ msg = match probes (i + S n)%nat with
                              | Responded _ => "Backend failed to start"
                              | ProbeError => "Backend not responding"
                              end
                 end).
    { intros Hne. destruct (IH (S i)) as (Hb & Hbefore & Hres).
      split; [lia|]. split.
      - intros j Hj. destruct j as [|j]; [rewrite Nat.add_0_r; exact Hne|].
        replace (i + S j)%nat with (S i + j)%nat by lia. apply Hbefore. lia.
      - destruct (fst (check probes (S i) n)) as [|msg].
        + replace (i + (S (snd (check probes (S i) n)) - 1))%nat
            with (S i + (snd (check probes (S i) n) - 1))%nat by lia. exact Hres.
        + replace (i + S n)%nat with (S i + n)%nat by lia.
          destruct Hres as (H1 & H2 & H3). repeat split; auto; lia. }
    simpl. destruct (probes i) as [code|] eqn:E.
    + destruct (Z.eqb_spec code 200) as [->|Hne]; simpl.
      * repeat split; try lia. rewrite Nat.add_0_r. exact E.
      * destruct (check probes (S i) n) as [r k] eqn:Ec. simpl in *.
        apply Hstep. congruence.
    + destruct (check probes (S i) n) as [r k] eqn:Ec. simpl in *.
      apply Hstep. discriminate.
Qed.

(** X16: [waitForBackend] probes the backend at most retries + 1 times
    (31 by default), stops at the first probe answered with status 200
    and is ready exactly when one of those probes is; otherwise it fails
    after all of them, having waited 3000 + 1500 * retries ms, with a
    message that tells an unanswered last probe from an answered one. *)
Theorem wait_for_backend_bounded (retries : nat) (probes : nat -> probe) :
  let r := waitForBackend retries probes in
  (1 <= snd r <= retries + 1)%nat
  /\ waitedMs (snd r) <= 3000 + 1500 * Z.of_nat retries
  /\ (fst r = Ready <-> exists j, (j <= retries)%nat /\ probes j = Responded 200)
  /\ (forall j, (j < snd r - 1)%nat -> probes j <> Responded 200)
  /\ match fst r with
     | Ready => probes (snd r - 1)%nat = Responded 200
     | Failed msg =>
         snd r = (retries + 1)%nat
         /\ waitedMs (snd r) = 3000 + 1500 * Z.of_nat retries
         /\ msg = match probes retries with
                  | Responded _ => "Backend failed to start"
                  | ProbeError => "Backend not responding"
                  end
     end.
Proof.
  unfold waitForBackend. simpl.
  destruct (check_spec probes retries 0%nat) as (Hb & Hbefore & Hres). simpl in *.
  split; [exact Hb|]. split; [unfold waitedMs; lia|]. split.
  - split.
    + intros Hr. rewrite Hr in Hres. exists (snd (check probes 0 retries) - 1)%nat.
      split; [lia | exact Hres].
    + intros [j [Hj Hp]].
      destruct (fst (check probes 0 retries)) as [|msg]; [reflexivity|].
      destruct Hres as (Hk & Hlast & _). exfalso.
      destruct (Nat.eq_dec j retries) as [->|Hne]; [contradiction|].
      apply (Hbefore j); [lia | exact Hp].
  - split; [exact Hbefore|].
    destruct (fst (check probes 0 retries)) as [|msg]; [exact Hres|].
    destruct Hres as (Hk & _ & Hmsg). split; [exact Hk|]. split; [|exact Hmsg].
    unfold waitedMs. rewrite Hk. lia.
Qed.

(** ** Candidate records *)



Section TagRoundTrip.
Context {L : Lowercase}.



(** X18: Enter in the custom-tag input of the profile view keeps all
    three slices free of tags equal up to case, provided they were:
    the candidates list, the fetched profile and the selected
    candidate. *)
Theorem profile_custom_tag_keeps_slices_clean (c : candidate) (newTag : string)
    (patch : fetched unit) (s : recruit) :
  tagsClean (candidates s) ->
  default true (option_map (fun p => noDupCI (tagsOf p)) (candidateProfile s)) = true ->
  default true (option_map (fun p => noDupCI (tagsOf p)) (selectedCandidate s)) = true ->
  let s' := fst (profileAddCustom c newTag patch s) in
  tagsClean (candidates s')
  /\ default true (option_map (fun p => noDupCI (tagsOf p)) (candidateProfile s')) = true
  /\ default true (option_map (fun p => noDupCI (tagsOf p)) (selectedCandidate s')) = true.
Proof.
  intros Hcs Hp Hsel. simpl. unfold profileAddCustom.
  destruct (truthy newTag); [|auto].
  pose proof (addTag_list_clean (c_id c) newTag patch s Hcs) as Hlist.
  assert (Hkeep : candidateProfile (fst (addTagToCandidate (c_id c) newTag patch s))
                  = candidateProfile s
                  /\ selectedCandidate (fst (addTagToCandidate (c_id c) newTag patch s))
                     = selectedCandidate s).
  { unfold addTagToCandidate.
    destruct (findCandidate (c_id c) (candidates s)); [|auto].
    destruct (hasTagCI newTag (tagsOf c0)); [auto|].
    unfold saveCandidateTags. destruct (res_ok patch); auto. }
  destruct (addTagToCandidate (c_id c) newTag patch s) as [s1 reqs]. simpl in *.
  destruct Hkeep as [Ep Es]. rewrite Ep, Es.
  split; [exact Hlist|]. split.
  - destruct (candidateProfile s) as [p|]; [|reflexivity]. simpl in *.
    pose proof (appendTagCI_clean newTag p Hp) as H. simpl in H. exact H.
  - destruct (selectedCandidate s) as [p|]; [|reflexivity]. simpl in *.
    pose proof (appendTagCI_clean newTag p Hsel) as H. simpl in H. exact H.
Qed.
End TagRoundTrip.


Lemma profile_custom_tag_keeps_slices_clean_witness :
  let c := mkCandidate 1 "Anna" None (Some ["Rejected"]) in
  let s := mkRecruit [c] ∅ (Some 1) (Some c) (Some c) false 1 None in
  option_map tagsOf
    (candidateProfile (fst (profileAddCustom (L := asciiLowercase) c "REJECTED" (Json tt) s)))
  = Some ["Rejected"]
  /\ tagsClean (L := asciiLowercase)
       (candidates (fst (profileAddCustom (L := asciiLowercase) c "REJECTED" (Json tt) s))).
Proof.
  assert (Hcs : tagsClean (L := asciiLowercase)
                  [mkCandidate 1 "Anna" None (Some ["Rejected"])]).
  { repeat constructor. }
  destruct (profile_custom_tag_keeps_slices_clean (L := asciiLowercase)
              (mkCandidate 1 "Anna" None (Some ["Rejected"])) "REJECTED" (Json tt)
              (mkRecruit [mkCandidate 1 "Anna" None (Some ["Rejected"])] ∅ (Some 1)
                         (Some (mkCandidate 1 "Anna" None (Some ["Rejected"])))
                         (Some (mkCandidate 1 "Anna" None (Some ["Rejected"]))) false 1 None)
              Hcs eq_refl eq_refl) as (Hl & _ & _).
  split; [reflexivity | exact Hl].
Defined.
